(** * Voice-broadcast backend: dispatch engine, webhook sink and persistence

    A shallow embedding of the parts of the broadcast backend that decide the
    behaviour of campaigns and calls:

    - [models/Broadcast.js], [models/BroadcastCall.js], [models/OptOut.js]
      (documents, instance methods and static queries),
    - [services/broadcastQueueService.js] (the per-campaign dispatch tick),
    - [services/broadcastService.js] (create / status / cancel),
    - the Twilio webhook controller (status callback, stats recomputation),
    - [utils/messagePersonalizer.js] and the [/broadcast/start] controller.

    Conventions.  A MongoDB collection is a list of documents in the store's
    natural order; [find] is a filter over it and [limit] a prefix.  A
    [Date] is the number of milliseconds since the epoch, in [Z]; every
    operation receives the clock reading [now] it would obtain from
    [new Date()] / [Date.now()].  A Mongoose document method that ends in
    [await this.save()] is written as the field assignments (a function on
    the document) and closed by [save], which replaces the stored document
    carrying the same [_id].  The telephony provider is an oracle [dial].
    The promises of one dispatch batch are run one after the other, in batch
    order. *)

From Stdlib Require Import ZArith List Lia.
From stdpp Require Import base option list gmap strings.

Open Scope Z_scope.

(** ** Statuses *)

Module CallStatus.
(** The [enum] of [broadcastCallSchema.status]. *)
Inductive t :=
| queued | calling | ringing | in_progress | answered | completed
| failed | busy | no_answer | cancelled | opted_out.

#[global] Instance eq_dec : EqDecision t.
Proof. solve_decision. Defined.

Definition to_nat (s : t) : nat :=
  match s with
  | queued => 0 | calling => 1 | ringing => 2 | in_progress => 3
  | answered => 4 | completed => 5 | failed => 6 | busy => 7
  | no_answer => 8 | cancelled => 9 | opted_out => 10
  end%nat.

Definition of_nat (n : nat) : option t :=
  match n with
  | 0 => Some queued | 1 => Some calling | 2 => Some ringing
  | 3 => Some in_progress | 4 => Some answered | 5 => Some completed
  | 6 => Some failed | 7 => Some busy | 8 => Some no_answer
  | 9 => Some cancelled | 10 => Some opted_out | _ => None
  end%nat.

#[global] Instance countable : Countable t :=
  inj_countable to_nat of_nat ltac:(by intros []).

(** The value a status string of the schema's enum denotes; any other
    string fails the enum validator on [save]. *)
Definition of_string (s : string) : option t :=
  if decide (s = "queued") then Some queued
  else if decide (s = "calling") then Some calling
  else if decide (s = "ringing") then Some ringing
  else if decide (s = "in_progress") then Some in_progress
  else if decide (s = "answered") then Some answered
  else if decide (s = "completed") then Some completed
  else if decide (s = "failed") then Some failed
  else if decide (s = "busy") then Some busy
  else if decide (s = "no_answer") then Some no_answer
  else if decide (s = "cancelled") then Some cancelled
  else if decide (s = "opted_out") then Some opted_out
  else None.
End CallStatus.

Module BroadcastStatus.
(** The [enum] of [broadcastSchema.status]. *)
Inductive t := draft | queued | in_progress | completed | cancelled.

#[global] Instance eq_dec : EqDecision t.
Proof. solve_decision. Defined.
End BroadcastStatus.

Inductive DndStatus := allowed | blocked | unchecked.

#[global] Instance DndStatus_eq_dec : EqDecision DndStatus.
Proof. solve_decision. Defined.

(** Document identifiers ([ObjectId]). *)
Abbreviation ObjectId := nat (only parsing).

(** JavaScript [x || d] on a number that may be [undefined]: [0] and
    [undefined] are falsy. *)
Definition num_or (x : option Z) (d : Z) : Z :=
  match x with
  | Some v => if decide (v = 0) then d else v
  | None => d
  end.

(** ** models/Broadcast.js *)

Module Broadcast.
(** [stats].  A key is a number, or holds no number ([undefined], or the
    [NaN] that [undefined + 1] gives): only [opted_out] is ever assigned
    without a value (by [updateBroadcastStats]), so it alone is optional.
    What the ODM stores for a key missing from an assigned literal is not
    part of this model. *)
Record Stats := mkStats {
  total : Z;
  queued : Z;
  calling : Z;
  answered : Z;
  completed : Z;
  failed : Z;
  opted_out : option Z
}.

Record Compliance := mkCompliance {
  disclaimerText : string;
  optOutEnabled : bool;
  dndRespect : bool
}.

Record Config := mkConfig {
  maxConcurrent : Z;
  maxRetries : Z;
  retryDelay : Z;
  compliance : Compliance
}.

Record Contact := mkContact {
  contact_phone : string;
  contact_name : option string
}.

Record t := mk {
  _id : ObjectId;
  name : string;
  contacts : list Contact;
  status : BroadcastStatus.t;
  stats : Stats;
  config : Config;
  startedAt : option Z;
  completedAt : option Z
}.

(** Schema defaults. *)
Definition default_maxConcurrent : Z := 50.
Definition default_maxRetries : Z := 2.
Definition default_retryDelay : Z := 300000.
Definition default_compliance : Compliance :=
  mkCompliance "This is an automated call from" true true.

Definition set_status (s : BroadcastStatus.t) (b : t) : t :=
  mk (_id b) (name b) (contacts b) s (stats b) (config b) (startedAt b) (completedAt b).
Definition set_stats (s : Stats) (b : t) : t :=
  mk (_id b) (name b) (contacts b) (status b) s (config b) (startedAt b) (completedAt b).
Definition set_startedAt (d : option Z) (b : t) : t :=
  mk (_id b) (name b) (contacts b) (status b) (stats b) (config b) d (completedAt b).
Definition set_completedAt (d : option Z) (b : t) : t :=
  mk (_id b) (name b) (contacts b) (status b) (stats b) (config b) (startedAt b) d.

(** [Broadcast.findById]. *)
Definition findById (id : ObjectId) (bs : list t) : option t :=
  List.find (fun b => bool_decide (_id b = id)) bs.

(** [await this.save()]. *)
Definition save (b : t) (bs : list t) : list t :=
  (fun d => if decide (_id d = _id b) then b else d) <$> bs.

(** The stat keys [incrementStat] is called with. *)
Inductive StatKey := k_failed | k_opted_out | k_calling.

(** [this.stats[statKey] += 1].  [this] was loaded from the store: a key
    the stored [stats] lacks reads as its schema default [0]. *)
Definition incrementStat (k : StatKey) (this : t) : t :=
  let s := stats this in
  set_stats
    match k with
    | k_failed =>
        mkStats (total s) (queued s) (calling s) (answered s) (completed s)
                (failed s + 1) (opted_out s)
    | k_opted_out =>
        mkStats (total s) (queued s) (calling s) (answered s) (completed s)
                (failed s) (Some (default 0 (opted_out s) + 1))
    | k_calling =>
        mkStats (total s) (queued s) (calling s + 1) (answered s)
                (completed s) (failed s) (opted_out s)
    end this.

(** [updateStatus(newStatus)] *)
Definition updateStatus (now : Z) (newStatus : BroadcastStatus.t) (this : t) : t :=
  let this := set_status newStatus this in
  let this :=
    if bool_decide (newStatus = BroadcastStatus.in_progress)
       && bool_decide (startedAt this = None)
    then set_startedAt (Some now) this else this in
  if bool_decide (newStatus = BroadcastStatus.completed)
     || bool_decide (newStatus = BroadcastStatus.cancelled)
  then set_completedAt (Some now) this else this.
End Broadcast.

(** ** models/BroadcastCall.js *)

Module BroadcastCall.
Record t := mk {
  _id : ObjectId;
  broadcast : ObjectId;
  phone : string;
  audioUrl : string;
  callSid : option string;
  status : CallStatus.t;
  attempts : Z;
  retryAfter : option Z;
  duration : option Z;
  startTime : option Z;
  endTime : option Z;
  twilioError : option (Z * string);
  dndStatus : DndStatus;
  optedOut : bool;
  metadata : option (gmap string (option string))
}.

Definition set_callSid (v : option string) (c : t) : t :=
  mk (_id c) (broadcast c) (phone c) (audioUrl c) v (status c) (attempts c)
     (retryAfter c) (duration c) (startTime c) (endTime c) (twilioError c)
     (dndStatus c) (optedOut c) (metadata c).
Definition set_status (v : CallStatus.t) (c : t) : t :=
  mk (_id c) (broadcast c) (phone c) (audioUrl c) (callSid c) v (attempts c)
     (retryAfter c) (duration c) (startTime c) (endTime c) (twilioError c)
     (dndStatus c) (optedOut c) (metadata c).
Definition set_attempts (v : Z) (c : t) : t :=
  mk (_id c) (broadcast c) (phone c) (audioUrl c) (callSid c) (status c) v
     (retryAfter c) (duration c) (startTime c) (endTime c) (twilioError c)
     (dndStatus c) (optedOut c) (metadata c).
Definition set_retryAfter (v : option Z) (c : t) : t :=
  mk (_id c) (broadcast c) (phone c) (audioUrl c) (callSid c) (status c)
     (attempts c) v (duration c) (startTime c) (endTime c) (twilioError c)
     (dndStatus c) (optedOut c) (metadata c).
Definition set_duration (v : option Z) (c : t) : t :=
  mk (_id c) (broadcast c) (phone c) (audioUrl c) (callSid c) (status c)
     (attempts c) (retryAfter c) v (startTime c) (endTime c) (twilioError c)
     (dndStatus c) (optedOut c) (metadata c).
Definition set_startTime (v : option Z) (c : t) : t :=
  mk (_id c) (broadcast c) (phone c) (audioUrl c) (callSid c) (status c)
     (attempts c) (retryAfter c) (duration c) v (endTime c) (twilioError c)
     (dndStatus c) (optedOut c) (metadata c).
Definition set_endTime (v : option Z) (c : t) : t :=
  mk (_id c) (broadcast c) (phone c) (audioUrl c) (callSid c) (status c)
     (attempts c) (retryAfter c) (duration c) (startTime c) v (twilioError c)
     (dndStatus c) (optedOut c) (metadata c).
Definition set_twilioError (v : option (Z * string)) (c : t) : t :=
  mk (_id c) (broadcast c) (phone c) (audioUrl c) (callSid c) (status c)
     (attempts c) (retryAfter c) (duration c) (startTime c) (endTime c) v
     (dndStatus c) (optedOut c) (metadata c).
Definition set_dndStatus (v : DndStatus) (c : t) : t :=
  mk (_id c) (broadcast c) (phone c) (audioUrl c) (callSid c) (status c)
     (attempts c) (retryAfter c) (duration c) (startTime c) (endTime c)
     (twilioError c) v (optedOut c) (metadata c).
Definition set_optedOut (v : bool) (c : t) : t :=
  mk (_id c) (broadcast c) (phone c) (audioUrl c) (callSid c) (status c)
     (attempts c) (retryAfter c) (duration c) (startTime c) (endTime c)
     (twilioError c) (dndStatus c) v (metadata c).
Definition set_metadata (v : option (gmap string (option string))) (c : t) : t :=
  mk (_id c) (broadcast c) (phone c) (audioUrl c) (callSid c) (status c)
     (attempts c) (retryAfter c) (duration c) (startTime c) (endTime c)
     (twilioError c) (dndStatus c) (optedOut c) v.

(** [BroadcastCall.findById] and [BroadcastCall.findOne({ callSid })]. *)
Definition findById (id : ObjectId) (cs : list t) : option t :=
  List.find (fun c => bool_decide (_id c = id)) cs.
Definition findOneBySid (sid : string) (cs : list t) : option t :=
  List.find (fun c => bool_decide (callSid c = Some sid)) cs.

(** [await this.save()]. *)
Definition save (c : t) (cs : list t) : list t :=
  (fun d => if decide (_id d = _id c) then c else d) <$> cs.

(** [countDocuments({ broadcast, status: { $in: sts } })] *)
Definition countDocuments (bid : ObjectId) (sts : list CallStatus.t)
    (cs : list t) : Z :=
  Z.of_nat (length (List.filter
    (fun c => bool_decide (broadcast c = bid) && bool_decide (status c ∈ sts)) cs)).

(** [markCalling(callSid)] *)
Definition markCalling (now : Z) (sid : string) (this : t) : t :=
  let this := set_callSid (Some sid) this in
  let this := set_status CallStatus.calling this in
  let this := set_startTime (Some now) this in
  set_attempts (attempts this + 1) this.

(** [markCompleted(duration)] *)
Definition markCompleted (now : Z) (d : Z) (this : t) : t :=
  let this := set_status CallStatus.completed this in
  let this := set_endTime (Some now) this in
  set_duration (Some d) this.

(** [markFailed(errorCode, errorMsg, shouldRetry = true)]; [bs] is the
    campaign collection [Broadcast.findById] reads. *)
Definition markFailed (bs : list Broadcast.t) (now : Z)
    (errorCode : Z) (errorMsg : string) (shouldRetry : bool) (this : t) : t :=
  let this := set_status CallStatus.failed this in
  let this := set_endTime (Some now) this in
  let this := set_twilioError (Some (errorCode, errorMsg)) this in
  if shouldRetry && bool_decide (attempts this < 2) then
    let broadcast := Broadcast.findById (broadcast this) bs in
    let this :=
      set_retryAfter
        (Some (now + num_or (Broadcast.retryDelay ∘ Broadcast.config <$> broadcast)
                            300000)) this in
    set_status CallStatus.queued this
  else this.

(** [markOptedOut()] *)
Definition markOptedOut (now : Z) (this : t) : t :=
  let this := set_status CallStatus.opted_out this in
  let this := set_optedOut true this in
  set_endTime (Some now) this.

(** [retryAfter: { $lte: new Date() }]: a document without the field does
    not match. *)
Definition retryAfter_lte (now : Z) (c : t) : bool :=
  match retryAfter c with
  | Some d => bool_decide (d ≤ now)
  | None => false
  end.

(** [getRetryableCalls(broadcastId)] *)
Definition getRetryableCalls (now : Z) (broadcastId : ObjectId)
    (cs : list t) : list t :=
  take 50%nat
    (List.filter
       (fun c => bool_decide (broadcast c = broadcastId)
                 && bool_decide (status c = CallStatus.queued)
                 && bool_decide (attempts c < 2)
                 && retryAfter_lte now c) cs).
End BroadcastCall.

(** ** models/OptOut.js *)

Module OptOut.
Inductive Source := broadcast_keypress | manual | dnd_registry | api.

Record t := mk {
  phone : string;
  source : Source;
  optedOutAt : Z;
  expiresAt : Z
}.

(** [OptOut.exists(filter)] *)
Definition exists_ (filter : t -> bool) (os : list t) : bool :=
  existsb filter os.

(** [isOptedOut(phone)]: [exists({ phone, expiresAt: { $gt: now } })] *)
Definition isOptedOut (now : Z) (p : string) (os : list t) : bool :=
  exists_ (fun o => bool_decide (phone o = p) && bool_decide (now < expiresAt o)) os.

(** The update half of [findOneAndUpdate({ phone }, update)]: the first
    record of the phone takes the [source] and [optedOutAt] of the update;
    [expiresAt] is no key of the update and stays. *)
Fixpoint updateFirst (now : Z) (p : string) (src : Source) (os : list t)
    : list t :=
  match os with
  | [] => []
  | o :: os' =>
    if bool_decide (phone o = p) then mk p src now (expiresAt o) :: os'
    else o :: updateFirst now p src os'
  end.

(** [findOneAndUpdate({ phone }, { phone, source, optedOutAt: new Date() },
    { upsert: true })], as [addOptOut] and the keypress webhook run it.  When
    the phone has no record one is inserted; [insertedExpiresAt] is the
    [expiresAt] the store gives it (the schema default, six months after the
    insertion, where the ODM applies defaults on upsert). *)
Definition upsert (now insertedExpiresAt : Z) (p : string) (src : Source)
    (os : list t) : list t :=
  if exists_ (fun o => bool_decide (phone o = p)) os
  then updateFirst now p src os
  else os ++ [mk p src now insertedExpiresAt].

(** [addOptOut(phone, source, metadata)]: the store after the call. *)
Definition addOptOut (now insertedExpiresAt : Z) (p : string) (src : Source)
    (os : list t) : list t :=
  upsert now insertedExpiresAt p src os.
End OptOut.

(** ** Process state *)

(** Messages handed to the socket layer ([emitCallUpdate],
    [emitBroadcastUpdate], ...), most recent first. *)
Inductive Event :=
| call_update (broadcastId callId : ObjectId) (callSid : option string)
    (phone : string) (status : CallStatus.t) (duration : Z)
| broadcast_update (broadcastId : ObjectId) (status : BroadcastStatus.t)
    (stats : Broadcast.Stats) (activeCalls : Z)
| stats_update (totalCampaigns activeCampaigns : Z)
| broadcast_list_update.

(** The three collections, the queue service's [activeBroadcasts] map (its
    keys: the interval handle carries no data) and the emitted messages. *)
Record World := mkWorld {
  calls : list BroadcastCall.t;
  broadcasts : list Broadcast.t;
  optouts : list OptOut.t;
  activeBroadcasts : gset ObjectId;
  events : list Event
}.

Definition set_calls (cs : list BroadcastCall.t) (w : World) : World :=
  mkWorld cs (broadcasts w) (optouts w) (activeBroadcasts w) (events w).
Definition set_broadcasts (bs : list Broadcast.t) (w : World) : World :=
  mkWorld (calls w) bs (optouts w) (activeBroadcasts w) (events w).
Definition set_activeBroadcasts (a : gset ObjectId) (w : World) : World :=
  mkWorld (calls w) (broadcasts w) (optouts w) a (events w).
Definition emit (e : Event) (w : World) : World :=
  mkWorld (calls w) (broadcasts w) (optouts w) (activeBroadcasts w) (e :: events w).
Definition set_optouts (os : list OptOut.t) (w : World) : World :=
  mkWorld (calls w) (broadcasts w) os (activeBroadcasts w) (events w).

Definition save_call (c : BroadcastCall.t) (w : World) : World :=
  set_calls (BroadcastCall.save c (calls w)) w.
Definition save_broadcast (b : Broadcast.t) (w : World) : World :=
  set_broadcasts (Broadcast.save b (broadcasts w)) w.

(** What [twilioVoiceService.makeVoiceBroadcastCall] does: resolve with a
    call SID, or throw an error carrying a [message] and a [code] that is
    absent or a number (the provider's error codes). *)
Inductive DialResult :=
| dial_ok (sid : string)
| dial_error (code : option Z) (message : string).

(** [cursor.limit(n)]: [0] means no limit, a negative [n] is taken as its
    absolute value. *)
Definition limit {A} (n : Z) (l : list A) : list A :=
  if decide (n = 0) then l else take (Z.to_nat (Z.abs n)) l.

(** ** services/broadcastQueueService.js *)

Module BroadcastQueueService.
Import CallStatus.

(** [startBroadcast(broadcastId)]: registers the ticker once. *)
Definition startBroadcast (broadcastId : ObjectId) (w : World) : World :=
  if bool_decide (broadcastId ∈ activeBroadcasts w) then w
  else set_activeBroadcasts ({[broadcastId]} ∪ activeBroadcasts w) w.

(** [stopBroadcast(broadcastId)] *)
Definition stopBroadcast (broadcastId : ObjectId) (w : World) : World :=
  if bool_decide (broadcastId ∈ activeBroadcasts w)
  then set_activeBroadcasts (activeBroadcasts w ∖ {[broadcastId]}) w
  else w.

(** The value a caller passes as [broadcastId] to the queue service.
    [activeBroadcasts] is a JavaScript [Map], whose keys are compared by
    identity.  A ticker is registered under the [ObjectId] object the start
    handler passes ([broadcast._id]), and the tick stops it with that same
    object, captured by the interval's closure: this is [registered_object].
    The cancel and delete handlers pass [req.params.id], a string
    ([request_string]), which is equal to no key of the map. *)
Inductive BroadcastKey :=
| registered_object (id : ObjectId)
| request_string (id : ObjectId).

(** The campaign a key names. *)
Definition key_id (key : BroadcastKey) : ObjectId :=
  match key with
  | registered_object id => id
  | request_string id => id
  end.

(** [stopBroadcast(broadcastId)] for either kind of key:
    [this.activeBroadcasts.get(broadcastId)] finds nothing under a string. *)
Definition stopBroadcastAs (key : BroadcastKey) (w : World) : World :=
  match key with
  | registered_object id => stopBroadcast id w
  | request_string _ => w
  end.

(** [_checkDND(phoneNumber)] *)
Definition _checkDND (phoneNumber : string) : DndStatus := allowed.

(** [_isOptedOut(phoneNumber)]: [OptOut.exists({ phone })] *)
Definition _isOptedOut (phoneNumber : string) (os : list OptOut.t) : bool :=
  OptOut.exists_ (fun o => bool_decide (OptOut.phone o = phoneNumber)) os.

(** The [find({ broadcast, status: 'queued', attempts: 0 })] of
    [_getNextCalls]. *)
Definition freshCalls (broadcastId : ObjectId) (lim : Z)
    (cs : list BroadcastCall.t) : list BroadcastCall.t :=
  limit lim
    (List.filter
       (fun c => bool_decide (BroadcastCall.broadcast c = broadcastId)
                 && bool_decide (BroadcastCall.status c = queued)
                 && bool_decide (BroadcastCall.attempts c = 0)) cs).

(** [retryCalls.slice(0, n)] for the [n > 0] the caller passes. *)
Definition slice0 {A} (n : Z) (l : list A) : list A := take (Z.to_nat n) l.

(** [_getNextCalls(broadcastId, limit)] *)
Definition _getNextCalls (now : Z) (broadcastId : ObjectId) (lim : Z)
    (cs : list BroadcastCall.t) : list BroadcastCall.t :=
  let fresh := freshCalls broadcastId lim cs in
  if bool_decide (lim ≤ Z.of_nat (length fresh)) then fresh
  else
    let retryCalls := BroadcastCall.getRetryableCalls now broadcastId cs in
    fresh ++ slice0 (lim - Z.of_nat (length fresh)) retryCalls.

(** [_initiateCall(callDoc, broadcast)].  [broadcast] is the document the
    tick loaded: every call of the batch receives the same object, so the
    document is threaded through together with the world.  The store
    operations succeed: the [catch] block is entered from a throwing dial
    only. *)
Definition _initiateCall (dial : BroadcastCall.t -> DialResult) (now : Z)
    (callDoc : BroadcastCall.t) (bw : Broadcast.t * World)
    : Broadcast.t * World :=
  let '(broadcast, w) := bw in
  match BroadcastCall.findById (BroadcastCall._id callDoc) (calls w) with
  | None => (broadcast, w)
  | Some call =>
    let bid := Broadcast._id broadcast in
    let w := emit (call_update bid (BroadcastCall._id call) None
                     (BroadcastCall.phone call) calling 0) w in
    if Broadcast.dndRespect (Broadcast.compliance (Broadcast.config broadcast))
       && bool_decide (_checkDND (BroadcastCall.phone call) = blocked)
    then
      let call := BroadcastCall.set_dndStatus blocked call in
      let call := BroadcastCall.set_status failed call in
      let w := save_call call w in
      let broadcast := Broadcast.incrementStat Broadcast.k_failed broadcast in
      let w := save_broadcast broadcast w in
      (broadcast,
       emit (call_update bid (BroadcastCall._id call) None
               (BroadcastCall.phone call) failed 0) w)
    else if _isOptedOut (BroadcastCall.phone call) (optouts w) then
      let call := BroadcastCall.markOptedOut now call in
      let w := save_call call w in
      let broadcast := Broadcast.incrementStat Broadcast.k_opted_out broadcast in
      let w := save_broadcast broadcast w in
      (broadcast,
       emit (call_update bid (BroadcastCall._id call) None
               (BroadcastCall.phone call) opted_out 0) w)
    else
      match dial call with
      | dial_ok sid =>
        let call := BroadcastCall.markCalling now sid call in
        let w := save_call call w in
        let broadcast := Broadcast.incrementStat Broadcast.k_calling broadcast in
        let w := save_broadcast broadcast w in
        (broadcast,
         emit (call_update bid (BroadcastCall._id call) (Some sid)
                 (BroadcastCall.phone call) calling 0) w)
      | dial_error code message =>
        (* catch (error) *)
        match BroadcastCall.findById (BroadcastCall._id callDoc) (calls w) with
        | None => (broadcast, w)
        | Some call =>
          let call :=
            BroadcastCall.markFailed (broadcasts w) now (num_or code 500)
              message true call in
          let w := save_call call w in
          (broadcast,
           emit (call_update (BroadcastCall.broadcast call)
                   (BroadcastCall._id call) None
                   (BroadcastCall.phone call) failed 0) w)
        end
      end
  end.

Definition activeStatuses : list CallStatus.t := [calling; ringing; in_progress].
Definition pendingStatuses : list CallStatus.t :=
  [queued; calling; ringing; in_progress].

(** [_processBroadcastQueue(broadcastId)]: one dispatch tick.  [broadcastId]
    is the key the ticker is registered under, which the interval's closure
    holds, so its [stopBroadcast] finds the ticker. *)
Definition _processBroadcastQueue (dial : BroadcastCall.t -> DialResult)
    (now : Z) (broadcastId : ObjectId) (w : World) : World :=
  match Broadcast.findById broadcastId (broadcasts w) with
  | None => stopBroadcast broadcastId w
  | Some broadcast =>
    if bool_decide (Broadcast.status broadcast
                      ∈ [BroadcastStatus.completed; BroadcastStatus.cancelled])
    then stopBroadcast broadcastId w
    else
      let '(broadcast, w) :=
        if bool_decide (Broadcast.status broadcast = BroadcastStatus.queued)
        then
          let b := Broadcast.updateStatus now BroadcastStatus.in_progress broadcast in
          (b, save_broadcast b w)
        else (broadcast, w) in
      let activeCalls :=
        BroadcastCall.countDocuments broadcastId activeStatuses (calls w) in
      let maxConcurrent :=
        num_or (Some (Broadcast.maxConcurrent (Broadcast.config broadcast))) 50 in
      let availableSlots := maxConcurrent - activeCalls in
      if bool_decide (availableSlots ≤ 0) then w
      else
        let callsToMake := _getNextCalls now broadcastId availableSlots (calls w) in
        if bool_decide (length callsToMake = 0%nat) then
          let pendingCalls :=
            BroadcastCall.countDocuments broadcastId pendingStatuses (calls w) in
          if bool_decide (pendingCalls = 0) then
            let b := Broadcast.updateStatus now BroadcastStatus.completed broadcast in
            stopBroadcast broadcastId (save_broadcast b w)
          else w
        else
          let '(broadcast, w) :=
            foldl (fun bw c => _initiateCall dial now c bw) (broadcast, w)
                  callsToMake in
          emit (broadcast_update broadcastId (Broadcast.status broadcast)
                  (Broadcast.stats broadcast)
                  (activeCalls + Z.of_nat (length callsToMake))) w
  end.

(** [getActiveBroadcastsCount()] *)
Definition getActiveBroadcastsCount (w : World) : nat :=
  size (activeBroadcasts w).
End BroadcastQueueService.

(** ** Twilio webhook controller *)

Module TwilioWebhooks.
Import CallStatus.

(** The [:callId] segment of [/webhook/broadcast/:callId/status]: absent,
    not an [ObjectId] ([findById] throws a cast error, which the handler
    catches), or an [ObjectId]. *)
Inductive UrlId := id_absent | id_malformed | id_ok (n : ObjectId).

(** [req.body].  [CallDuration] is the value of
    [parseInt(CallDuration, 10)], [None] standing for [NaN]. *)
Record StatusBody := mkStatusBody {
  CallSid : string;
  CallStatus : string;
  CallDuration : option Z;
  AnsweredBy : option string;
  ErrorCode : option string;
  ErrorMessage : option string
}.

(** Truthiness of a string that may be [undefined]. *)
Definition truthy (s : option string) : bool :=
  match s with
  | Some v => bool_decide (v ≠ String.EmptyString)
  | None => false
  end.

(** The [statusMap] object literal of [handleCallStatus]. *)
Definition statusMap (s : string) : option CallStatus.t :=
  if decide (s = "initiated") then Some calling
  else if decide (s = "ringing") then Some ringing
  else if decide (s = "in-progress") then Some answered
  else if decide (s = "completed") then Some completed
  else if decide (s = "busy") then Some failed
  else if decide (s = "no-answer") then Some failed
  else if decide (s = "failed") then Some failed
  else if decide (s = "canceled") then Some cancelled
  else None.

(** [statusMap[CallStatus] || CallStatus], as the schema's enum validator
    lets it through on [save]; [None] is a validation error. *)
Definition mappedStatus (s : string) : option CallStatus.t :=
  match statusMap s with
  | Some st => Some st
  | None => CallStatus.of_string s
  end.

(** The [$match] / [$group] pipeline: status -> number of the campaign's
    calls holding it (statuses held by no call have no entry). *)
Definition aggregateByStatus (broadcastId : ObjectId)
    (cs : list BroadcastCall.t) : gmap CallStatus.t Z :=
  foldr (fun c m =>
           <[BroadcastCall.status c :=
               default 0 (m !! BroadcastCall.status c) + 1]> m)
        ∅
        (List.filter
           (fun c => bool_decide (BroadcastCall.broadcast c = broadcastId)) cs).

(** The object literal assigned to [broadcast.stats] by
    [updateBroadcastStats]: it has no [opted_out] key. *)
Definition recomputedStats (broadcast : Broadcast.t)
    (statMap : gmap CallStatus.t Z) : Broadcast.Stats :=
  Broadcast.mkStats
    (Broadcast.total (Broadcast.stats broadcast))
    (num_or (statMap !! queued) 0)
    (num_or (statMap !! calling) 0)
    (num_or (statMap !! answered) 0)
    (num_or (statMap !! completed) 0)
    (num_or (statMap !! failed) 0)
    None.

(** [updateBroadcastStats(broadcast)] *)
Definition updateBroadcastStats (broadcast : Broadcast.t) (w : World) : World :=
  let statMap := aggregateByStatus (Broadcast._id broadcast) (calls w) in
  let broadcast := Broadcast.set_stats (recomputedStats broadcast statMap) broadcast in
  save_broadcast broadcast w.

(** Lines 247-265 of [handleCallStatus]: the call the webhook is about,
    looked up by [CallSid], then by the [:callId] of the URL, whose
    [callSid] is then saved when the row has none. *)
Definition lookupCall (body : StatusBody) (callId : UrlId) (w : World)
    : option BroadcastCall.t * World :=
  match BroadcastCall.findOneBySid (CallSid body) (calls w) with
  | Some c => (Some c, w)
  | None =>
    match callId with
    | id_ok n =>
      match BroadcastCall.findById n (calls w) with
      | Some c =>
        if negb (truthy (BroadcastCall.callSid c)) then
          let c := BroadcastCall.set_callSid (Some (CallSid body)) c in
          (Some c, save_call c w)
        else (Some c, w)
      | None => (None, w)
      end
    | id_malformed | id_absent => (None, w)
    end
  end.

(** Lines 283-303 of [handleCallStatus]: the assignments to [call], [st]
    being the validated [statusMap[CallStatus] || CallStatus]. *)
Definition updatedCall (now : Z) (body : StatusBody) (st : CallStatus.t)
    (call : BroadcastCall.t) : BroadcastCall.t :=
  let call := BroadcastCall.set_status st call in
  let call :=
    if bool_decide (CallStatus body = "completed") then
      let call :=
        BroadcastCall.set_duration (Some (num_or (CallDuration body) 0)) call in
      BroadcastCall.set_endTime (Some now) call
    else call in
  let call :=
    if truthy (AnsweredBy body) then
      BroadcastCall.set_metadata
        (Some (<["answeredBy" := AnsweredBy body]>
                 (default ∅ (BroadcastCall.metadata call)))) call
    else call in
  if truthy (ErrorCode body) || truthy (ErrorMessage body) then
    BroadcastCall.set_metadata
      (Some (<["errorMessage" := ErrorMessage body]>
               (<["errorCode" := ErrorCode body]>
                  (default ∅ (BroadcastCall.metadata call))))) call
  else call.

(** [handleCallStatus(req, res)]: the HTTP status sent and the new world.
    A status the schema's enum refuses makes [call.save()] throw: 500. *)
Definition handleCallStatus (now : Z) (body : StatusBody) (callId : UrlId)
    (w : World) : Z * World :=
  let '(call, w) := lookupCall body callId w in
  match call with
  | None => (404, w)
  | Some call =>
    match mappedStatus (CallStatus body) with
    | None => (500, w)
    | Some st =>
      let call := updatedCall now body st call in
      let w := save_call call w in
      let w :=
        emit (call_update (BroadcastCall.broadcast call) (BroadcastCall._id call)
                (Some (CallSid body)) (BroadcastCall.phone call)
                (BroadcastCall.status call)
                (num_or (BroadcastCall.duration call) 0)) w in
      let w :=
        match Broadcast.findById (BroadcastCall.broadcast call) (broadcasts w) with
        | Some broadcast => updateBroadcastStats broadcast w
        | None => w
        end in
      (200, w)
    end
  end.

(** What [handleKeypress] answers: 404, or a TwiML document that says one
    sentence and hangs up. *)
Inductive KeypressResponse :=
| keypress_not_found
| keypress_say_and_hangup (sentence : string).

(** [handleKeypress(req, res)], [CallSid] and [Digits] being the two keys it
    reads from [req.body]. *)
Definition handleKeypress (now insertedExpiresAt : Z) (sid digits : string)
    (w : World) : KeypressResponse * World :=
  match BroadcastCall.findOneBySid sid (calls w) with
  | None => (keypress_not_found, w)
  | Some call =>
    if bool_decide (digits = "9") then
      let call := BroadcastCall.markOptedOut now call in
      let w := save_call call w in
      let w :=
        set_optouts
          (OptOut.upsert now insertedExpiresAt (BroadcastCall.phone call)
             OptOut.broadcast_keypress (optouts w)) w in
      (keypress_say_and_hangup
         "You will no longer receive these calls. Thank you.", w)
    else (keypress_say_and_hangup "Invalid option.", w)
  end.
End TwilioWebhooks.

(** ** services/broadcastService.js *)

Module BroadcastService.
Import CallStatus.

(** The [data] argument of [createBroadcast]. *)
Record CreateData := mkCreateData {
  name : string;
  contacts : list Broadcast.Contact;
  maxConcurrent : option Z;
  maxRetries : option Z;
  retryDelay : option Z;
  compliance : option Broadcast.Compliance
}.

(** [createBroadcast(data, userId)]; [newId] is the [_id] the store gives
    the created document.  The keys of [stats] the literal leaves out take
    the schema default, [status] is the default ['draft']. *)
Definition createBroadcast (newId : ObjectId) (data : CreateData) (w : World)
    : Broadcast.t * World :=
  let broadcast :=
    Broadcast.mk newId (name data) (contacts data) BroadcastStatus.draft
      (Broadcast.mkStats (Z.of_nat (length (contacts data))) 0 0 0 0 0 (Some 0))
      (Broadcast.mkConfig
         (num_or (maxConcurrent data) 50)
         (num_or (maxRetries data) 2)
         (num_or (retryDelay data) 30000)
         (default Broadcast.default_compliance (compliance data)))
      None None in
  (broadcast, set_broadcasts (broadcasts w ++ [broadcast]) w).

(** The object literal assigned to [broadcast.stats] by
    [getBroadcastStatus]. *)
Definition refreshedStats (broadcast : Broadcast.t)
    (statMap : gmap CallStatus.t Z) : Broadcast.Stats :=
  Broadcast.mkStats
    (Broadcast.total (Broadcast.stats broadcast))
    (num_or (statMap !! queued) 0)
    (num_or (statMap !! calling) 0)
    (num_or (statMap !! answered) 0)
    (num_or (statMap !! completed) 0)
    (num_or (statMap !! failed) 0)
    (Some (num_or (statMap !! opted_out) 0)).

(** [getBroadcastStatus(broadcastId)]; [None] when it throws
    ['Broadcast not found']. *)
Definition getBroadcastStatus (broadcastId : ObjectId) (w : World)
    : option (Broadcast.t * World) :=
  match Broadcast.findById broadcastId (broadcasts w) with
  | None => None
  | Some broadcast =>
    let statMap :=
      TwilioWebhooks.aggregateByStatus (Broadcast._id broadcast) (calls w) in
    let broadcast :=
      Broadcast.set_stats (refreshedStats broadcast statMap) broadcast in
    Some (broadcast, save_broadcast broadcast w)
  end.

(** [_broadcastStatsUpdate()] *)
Definition _broadcastStatsUpdate (w : World) : World :=
  let total := Z.of_nat (length (broadcasts w)) in
  let active :=
    Z.of_nat (length (List.filter
      (fun b => bool_decide (Broadcast.status b = BroadcastStatus.in_progress))
      (broadcasts w))) in
  emit broadcast_list_update (emit (stats_update total active) w).

(** [BroadcastCall.updateMany({ broadcast, status: 'queued' },
    { status: 'cancelled' })] *)
Definition cancelQueued (broadcastId : ObjectId) (cs : list BroadcastCall.t)
    : list BroadcastCall.t :=
  (fun c =>
     if bool_decide (BroadcastCall.broadcast c = broadcastId)
        && bool_decide (BroadcastCall.status c = queued)
     then BroadcastCall.set_status cancelled c else c) <$> cs.

(** [cancelBroadcast(broadcastId)]; [None] when it throws
    ['Broadcast not found'].  The store queries cast [broadcastId] to the
    campaign's id; the queue service receives it as it is. *)
Definition cancelBroadcast (now : Z) (key : BroadcastQueueService.BroadcastKey)
    (w : World) : option (Broadcast.t * World) :=
  let broadcastId := BroadcastQueueService.key_id key in
  match Broadcast.findById broadcastId (broadcasts w) with
  | None => None
  | Some broadcast =>
    let w := BroadcastQueueService.stopBroadcastAs key w in
    let w := set_calls (cancelQueued broadcastId (calls w)) w in
    let broadcast := Broadcast.updateStatus now BroadcastStatus.cancelled broadcast in
    let w := save_broadcast broadcast w in
    let w := _broadcastStatsUpdate w in
    let w := emit broadcast_list_update w in
    Some (broadcast, w)
  end.

(** What [emitCallsCreated(broadcast._id)] sends. *)
Inductive Notice := calls_created (broadcastId : ObjectId).

(** One element of [callDocs]: the fields of the row a contact gets, the
    others taking their schema default.  [trim] is
    [String.prototype.trim] on phone numbers. *)
Definition callDoc (trim : string -> string) (broadcast : Broadcast.t)
    (audioUrl : string) (id : ObjectId) (contact : Broadcast.Contact)
    : BroadcastCall.t :=
  BroadcastCall.mk id (Broadcast._id broadcast)
    (trim (Broadcast.contact_phone contact)) audioUrl None queued 0 None
    None None None None unchecked false None.

(** [_createBroadcastCalls(broadcast, audioAssets, personalizedMessages)],
    one message per contact of the campaign; [newCallId i] is the [_id] the
    store gives the [i]-th inserted row.  [insertMany] validates every
    document before it writes any: a row whose required [contact.phone] is
    empty makes it throw ([None]) with nothing inserted. *)
Definition _createBroadcastCalls (trim : string -> string)
    (newCallId : nat -> ObjectId) (broadcast : Broadcast.t) (audioUrl : string)
    (w : World) : option (World * Notice) :=
  let callDocs :=
    imap (fun i contact => callDoc trim broadcast audioUrl (newCallId i) contact)
         (Broadcast.contacts broadcast) in
  if existsb (fun c => bool_decide (BroadcastCall.phone c = String.EmptyString))
             callDocs
  then None
  else Some (set_calls (calls w ++ callDocs) w,
             calls_created (Broadcast._id broadcast)).

(** The errors [startBroadcast] throws. *)
Inductive StartError :=
| broadcast_not_found
| broadcast_already (s : BroadcastStatus.t)
| tts_failed
| insert_failed.

(** [startBroadcast(broadcastId)].  [tts] is the outcome of
    [generateSingleAudio]: the CDN URL of the audio, or [None] when the
    synthesis or the upload throws.  The result is what the promise settles
    with, and the world it leaves. *)
Definition startBroadcast (trim : string -> string)
    (newCallId : nat -> ObjectId) (tts : option string)
    (broadcastId : ObjectId) (w : World)
    : (StartError + Broadcast.t * Notice) * World :=
  match Broadcast.findById broadcastId (broadcasts w) with
  | None => (inl broadcast_not_found, w)
  | Some broadcast =>
    if negb (bool_decide (Broadcast.status broadcast = BroadcastStatus.draft))
    then (inl (broadcast_already (Broadcast.status broadcast)), w)
    else
      match tts with
      | None => (inl tts_failed, w)
      | Some audioUrl =>
        let broadcast := Broadcast.set_status BroadcastStatus.queued broadcast in
        let w := save_broadcast broadcast w in
        match _createBroadcastCalls trim newCallId broadcast audioUrl w with
        | None => (inl insert_failed, w)
        | Some (w, notice) =>
          let w := BroadcastQueueService.startBroadcast broadcastId w in
          let w := _broadcastStatsUpdate w in
          let w := emit broadcast_list_update w in
          (inr (broadcast, notice), w)
        end
      end
  end.

(** [Broadcast.findByIdAndDelete(broadcastId)] *)
Fixpoint deleteFirst (broadcastId : ObjectId) (bs : list Broadcast.t)
    : list Broadcast.t :=
  match bs with
  | [] => []
  | b :: bs' =>
    if bool_decide (Broadcast._id b = broadcastId) then bs'
    else b :: deleteFirst broadcastId bs'
  end.

(** [deleteBroadcast(broadcastId)]; [None] when it throws
    ['Broadcast not found'].  As in [cancelBroadcast], the queue service
    receives [broadcastId] as it is.  The removal of the audio assets from the CDN
    touches nothing of the world (its failures are caught and logged). *)
Definition deleteBroadcast (key : BroadcastQueueService.BroadcastKey)
    (w : World) : option World :=
  let broadcastId := BroadcastQueueService.key_id key in
  match Broadcast.findById broadcastId (broadcasts w) with
  | None => None
  | Some broadcast =>
    let w :=
      if bool_decide (Broadcast.status broadcast = BroadcastStatus.in_progress)
      then BroadcastQueueService.stopBroadcastAs key w else w in
    let w :=
      set_calls
        (List.filter
           (fun c => negb (bool_decide (BroadcastCall.broadcast c = broadcastId)))
           (calls w)) w in
    let w := set_broadcasts (deleteFirst broadcastId (broadcasts w)) w in
    let w := _broadcastStatsUpdate w in
    Some (emit broadcast_list_update w)
  end.
End BroadcastService.

(** ** utils/messagePersonalizer.js *)

Module MessagePersonalizer.
(** A JavaScript string: its UTF-16 code units. *)
Abbreviation jsstring := (list N) (only parsing).

Definition lbrace : N := 123%N.
Definition rbrace : N := 125%N.

(** [WhiteSpace] and [LineTerminator] code units, which [trim] strips. *)
Definition is_space (c : N) : bool :=
  bool_decide (c ∈ [9; 10; 11; 12; 13; 32; 160; 5760; 8232; 8233; 8239;
                     8287; 12288; 65279]%N)
  || (N.leb 8192 c && N.leb c 8202).

Fixpoint trimStart (s : list N) : list N :=
  match s with
  | c :: s' => if is_space c then trimStart s' else s
  | [] => []
  end.

(** [String.prototype.trim] *)
Definition trim (s : list N) : list N :=
  rev (trimStart (rev (trimStart s))).

(** The longest prefix free of ['}'], and what follows it. *)
Fixpoint span_not_rbrace (s : list N) : list N * list N :=
  match s with
  | [] => ([], [])
  | c :: s' =>
    if decide (c = rbrace) then ([], s)
    else let '(run, rest) := span_not_rbrace s' in (c :: run, rest)
  end.

(** A match of [/{{([^}]+)}}/] starting at the head of [s]: group 1 and the
    length of the match.  [[^}]+] is greedy; giving back part of the run
    never helps, since what would then have to be ['}'] is a unit of the
    run. *)
Definition match_at (s : list N) : option (list N * nat) :=
  match s with
  | a :: b :: s' =>
    if bool_decide (a = lbrace) && bool_decide (b = lbrace) then
      match span_not_rbrace s' with
      | ((_ :: _) as run, c :: d :: _) =>
        if bool_decide (c = rbrace) && bool_decide (d = rbrace)
        then Some (run, (4 + length run)%nat)
        else None
      | _ => None
      end
    else None
  | _ => None
  end.

(** The [while ((match = variablePattern.exec(template)) !== null)] loop of
    a global regular expression: the leftmost match at or after
    [lastIndex], which then moves past it.  [skip] counts the code units
    still covered by the previous match. *)
Fixpoint exec_all (skip : nat) (s : list N) : list (list N) :=
  match s with
  | [] => []
  | _ :: s' =>
    match skip with
    | S k => exec_all k s'
    | O =>
      match match_at s with
      | Some (group1, len) => trim group1 :: exec_all (len - 1) s'
      | None => exec_all 0 s'
      end
    end
  end.

Record TemplateValidation := mkTemplateValidation {
  valid : bool;
  variables : list (list N)
}.

(** [validateTemplate(template)] *)
Definition validateTemplate (template : list N) : TemplateValidation :=
  let variables := exec_all 0 template in
  mkTemplateValidation true variables.
End MessagePersonalizer.

(** ** controllers/broadcastController.js *)

Module BroadcastController.
(** [req.body] of [POST /broadcast/start]; [messageTemplate] is the string
    the regular expression sees. *)
Record StartBody := mkStartBody {
  name : string;
  messageTemplate : list N;
  contacts : option (list Broadcast.Contact);
  maxConcurrent : option Z;
  maxRetries : option Z;
  compliance : option Broadcast.Compliance
}.

(** The status code and the JSON body's [error] / [success] keys. *)
Record Response := mkResponse {
  code : Z;
  error : option string;
  success : bool
}.

(** [startBroadcast(req, res)].  [created] tells whether
    [broadcastService.createBroadcast] resolves ([false]: it throws, e.g.
    on a schema validation error).  The service's [startBroadcast] is
    launched without being awaited and does not reach the response. *)
Definition startBroadcast (created : bool) (newId : ObjectId)
    (body : StartBody) (w : World) : Response * World :=
  let templateValidation :=
    MessagePersonalizer.validateTemplate (messageTemplate body) in
  if negb (MessagePersonalizer.valid templateValidation) then
    (mkResponse 400 (Some "Invalid message template") false, w)
  else
    match contacts body with
    | None | Some [] => (mkResponse 400 (Some "No contacts provided") false, w)
    | Some cs =>
      if bool_decide (10000 < Z.of_nat (length cs)) then
        (mkResponse 400 (Some "Maximum 10,000 contacts per broadcast") false, w)
      else if created then
        let '(broadcast, w) :=
          BroadcastService.createBroadcast newId
            (BroadcastService.mkCreateData (name body) cs (maxConcurrent body)
               (maxRetries body) None (compliance body)) w in
        (mkResponse 201 None true, w)
      else (mkResponse 500 (Some "Failed to start broadcast") false, w)
    end.

(** [cancelBroadcast(req, res)], [id] being [req.params.id]. *)
Definition cancelBroadcast (now : Z) (id : ObjectId) (w : World)
    : Response * World :=
  match BroadcastService.cancelBroadcast now
          (BroadcastQueueService.request_string id) w with
  | Some (broadcast, w) => (mkResponse 200 None true, w)
  | None => (mkResponse 500 (Some "Failed to cancel broadcast") false, w)
  end.

(** [deleteBroadcast(req, res)], [id] being [req.params.id]. *)
Definition deleteBroadcast (id : ObjectId) (w : World) : Response * World :=
  match BroadcastService.deleteBroadcast
          (BroadcastQueueService.request_string id) w with
  | Some w => (mkResponse 200 None true, w)
  | None => (mkResponse 500 (Some "Failed to delete broadcast") false, w)
  end.
End BroadcastController.

(** ** The spec's vocabulary and sample documents *)

(** The statuses the specification calls terminal. *)
Definition spec_terminal : list CallStatus.t :=
  [CallStatus.completed; CallStatus.failed; CallStatus.cancelled;
   CallStatus.opted_out].

(** The six statuses that have a key in [stats]. *)
Definition bucketed : list CallStatus.t :=
  [CallStatus.queued; CallStatus.calling; CallStatus.answered;
   CallStatus.completed; CallStatus.failed; CallStatus.opted_out].

(** [stats.queued + stats.calling + stats.answered + stats.completed +
    stats.failed + stats.opted_out], a missing [opted_out] counting for
    nothing. *)
Definition statsSum (s : Broadcast.Stats) : Z :=
  Broadcast.queued s + Broadcast.calling s + Broadcast.answered s
  + Broadcast.completed s + Broadcast.failed s
  + default 0 (Broadcast.opted_out s).


Module Sample.
(** A call row as [_createBroadcastCalls] inserts it, then moved to the
    given status, attempt count and retry date. *)
Definition call (id bid : ObjectId) (phone : string) (st : CallStatus.t)
    (attempts : Z) (retryAfter : option Z) : BroadcastCall.t :=
  BroadcastCall.mk id bid phone "https://cdn.example/a.mp3" None st attempts
    retryAfter None None None None unchecked false None.

Definition campaign (id : ObjectId) (st : BroadcastStatus.t) (total : Z)
    (maxRetries retryDelay : Z) : Broadcast.t :=
  Broadcast.mk id "diwali" [] st
    (Broadcast.mkStats total 0 0 0 0 0 (Some 0))
    (Broadcast.mkConfig 50 maxRetries retryDelay Broadcast.default_compliance)
    None None.

Definition world (cs : list BroadcastCall.t) (bs : list Broadcast.t)
    (os : list OptOut.t) : World :=
  mkWorld cs bs os {[1%nat]} [].

Definition provider_accepts (c : BroadcastCall.t) : DialResult := dial_ok "CA100".
Definition provider_rejects (c : BroadcastCall.t) : DialResult :=
  dial_error (Some 21610) "blocked".

Definition status_body (sid status : string) : TwilioWebhooks.StatusBody :=
  TwilioWebhooks.mkStatusBody sid status None None None None.
End Sample.

(** Membership in a literal list of statuses. *)
Ltac list_mem :=
  rewrite ?not_elem_of_cons, ?elem_of_cons, ?elem_of_nil; naive_solver.

(** The specification's [getRetryable(campaignId, limit)], written from its
    words, to be compared with [BroadcastCall.getRetryableCalls]: the calls
    with status queued, [0 < attempts < maxRetries] and [retryAfter <= now],
    in ascending order of [retryAfter]. *)
Fixpoint spec_insert_by_retryAfter (c : BroadcastCall.t)
    (l : list BroadcastCall.t) : list BroadcastCall.t :=
  match l with
  | [] => [c]
  | d :: l' =>
    if bool_decide (default 0 (BroadcastCall.retryAfter c)
                    ≤ default 0 (BroadcastCall.retryAfter d))
    then c :: l
    else d :: spec_insert_by_retryAfter c l'
  end.

Definition spec_getRetryable (maxRetries now : Z) (campaignId : ObjectId)
    (cs : list BroadcastCall.t) : list BroadcastCall.t :=
  foldr spec_insert_by_retryAfter []
    (List.filter
       (fun c => bool_decide (BroadcastCall.broadcast c = campaignId)
                 && bool_decide (BroadcastCall.status c = CallStatus.queued)
                 && bool_decide (0 < BroadcastCall.attempts c)
                 && bool_decide (BroadcastCall.attempts c < maxRetries)
                 && BroadcastCall.retryAfter_lte now c) cs).

(** The claim's condition on a retryable call with its [attempts > 0]
    clause left out: status queued, [attempts < maxRetries] and
    [retryAfter <= now]. *)
Definition spec_due (maxRetries now : Z) (campaignId : ObjectId)
    (c : BroadcastCall.t) : bool :=
  bool_decide (BroadcastCall.broadcast c = campaignId)
  && bool_decide (BroadcastCall.status c = CallStatus.queued)
  && bool_decide (BroadcastCall.attempts c < maxRetries)
  && match BroadcastCall.retryAfter c with
     | Some t => bool_decide (t ≤ now)
     | None => false
     end.

(** A fresh call of the campaign: queued and never attempted. *)
Definition spec_fresh (campaignId : ObjectId) (c : BroadcastCall.t) : bool :=
  bool_decide (BroadcastCall.broadcast c = campaignId)
  && bool_decide (BroadcastCall.status c = CallStatus.queued)
  && bool_decide (BroadcastCall.attempts c = 0).

(** * Properties *)

(** ** Stores: [findById] and [save] *)

Lemma call_save_ids c cs :
  BroadcastCall._id <$> BroadcastCall.save c cs = BroadcastCall._id <$> cs.
Proof.
  unfold BroadcastCall.save. rewrite <- list_fmap_compose.
  apply list_fmap_ext. intros _ d _. simpl. by case_decide.
Qed.

Lemma call_find_save id c cs d :
  BroadcastCall.findById id cs = Some d ->
  BroadcastCall.findById id (BroadcastCall.save c cs)
  = Some (if decide (BroadcastCall._id d = BroadcastCall._id c) then c else d).
Proof.
  unfold BroadcastCall.findById, BroadcastCall.save.
  induction cs as [|x cs IH]; simpl; [done|].
  destruct (decide (BroadcastCall._id x = BroadcastCall._id c)) as [Hd|Hd];
    destruct (decide (BroadcastCall._id x = id)) as [Hx|Hx]; simpl;
    rewrite ?(bool_decide_true _ Hx), ?(bool_decide_false _ Hx); intros H.
  - injection H as <-. rewrite decide_True by done.
    rewrite bool_decide_true by congruence. done.
  - rewrite bool_decide_false by congruence. by apply IH.
  - injection H as <-. rewrite decide_False by done. done.
  - by apply IH.
Qed.

Lemma call_findById_id id cs d :
  BroadcastCall.findById id cs = Some d -> BroadcastCall._id d = id /\ In d cs.
Proof.
  unfold BroadcastCall.findById. intros H.
  apply find_some in H as [Hin Hd]. by apply bool_decide_eq_true in Hd.
Qed.

Lemma call_findOneBySid_in sid cs d :
  BroadcastCall.findOneBySid sid cs = Some d ->
  BroadcastCall.callSid d = Some sid /\ In d cs.
Proof.
  unfold BroadcastCall.findOneBySid. intros H.
  apply find_some in H as [Hin Hd]. by apply bool_decide_eq_true in Hd.
Qed.

Lemma call_find_in c cs :
  In c cs -> is_Some (BroadcastCall.findById (BroadcastCall._id c) cs).
Proof.
  unfold BroadcastCall.findById.
  induction cs as [|x cs IH]; simpl; [done|].
  intros [->|Hin].
  - rewrite bool_decide_true by done. eauto.
  - destruct (bool_decide _); [eauto | by apply IH].
Qed.

Lemma call_find_save_same c cs d :
  BroadcastCall._id c = BroadcastCall._id d -> In d cs ->
  BroadcastCall.findById (BroadcastCall._id d) (BroadcastCall.save c cs) = Some c.
Proof.
  intros Hid Hin. destruct (call_find_in d cs Hin) as [e He].
  rewrite (call_find_save _ c cs e He).
  apply call_findById_id in He as [He _].
  rewrite decide_True; [done | congruence].
Qed.

Lemma broadcast_findById_id id bs b :
  Broadcast.findById id bs = Some b -> Broadcast._id b = id /\ In b bs.
Proof.
  unfold Broadcast.findById. intros H.
  apply find_some in H as [Hin Hd]. by apply bool_decide_eq_true in Hd.
Qed.

Lemma broadcast_find_save id b bs d :
  Broadcast.findById id bs = Some d ->
  Broadcast.findById id (Broadcast.save b bs)
  = Some (if decide (Broadcast._id d = Broadcast._id b) then b else d).
Proof.
  unfold Broadcast.findById, Broadcast.save.
  induction bs as [|x bs IH]; simpl; [done|].
  destruct (decide (Broadcast._id x = Broadcast._id b)) as [Hd|Hd];
    destruct (decide (Broadcast._id x = id)) as [Hx|Hx]; simpl;
    rewrite ?(bool_decide_true _ Hx), ?(bool_decide_false _ Hx); intros H.
  - injection H as <-. rewrite decide_True by done.
    rewrite bool_decide_true by congruence. done.
  - rewrite bool_decide_false by congruence. by apply IH.
  - injection H as <-. rewrite decide_False by done. done.
  - by apply IH.
Qed.


(** ** The status webhook, phase by phase *)

Lemma updatedCall_id now body st c :
  BroadcastCall._id (TwilioWebhooks.updatedCall now body st c) = BroadcastCall._id c.
Proof. unfold TwilioWebhooks.updatedCall. by repeat (case_match; simpl). Qed.

Lemma updatedCall_status now body st c :
  BroadcastCall.status (TwilioWebhooks.updatedCall now body st c) = st.
Proof. unfold TwilioWebhooks.updatedCall. by repeat (case_match; simpl). Qed.

Lemma updatedCall_callSid now body st c :
  BroadcastCall.callSid (TwilioWebhooks.updatedCall now body st c)
  = BroadcastCall.callSid c.
Proof. unfold TwilioWebhooks.updatedCall. by repeat (case_match; simpl). Qed.

Lemma updateBroadcastStats_calls b w :
  calls (TwilioWebhooks.updateBroadcastStats b w) = calls w.
Proof. reflexivity. Qed.

Lemma handleCallStatus_found now body callId w c w0 st :
  TwilioWebhooks.lookupCall body callId w = (Some c, w0) ->
  TwilioWebhooks.mappedStatus (TwilioWebhooks.CallStatus body) = Some st ->
  (TwilioWebhooks.handleCallStatus now body callId w).1 = 200
  /\ calls (TwilioWebhooks.handleCallStatus now body callId w).2
     = BroadcastCall.save (TwilioWebhooks.updatedCall now body st c) (calls w0).
Proof.
  intros Hl Hst. unfold TwilioWebhooks.handleCallStatus. rewrite Hl, Hst.
  split; [done|]. simpl. by destruct (Broadcast.findById _ _).
Qed.

Lemma handleCallStatus_rejected now body callId w c w0 :
  TwilioWebhooks.lookupCall body callId w = (Some c, w0) ->
  TwilioWebhooks.mappedStatus (TwilioWebhooks.CallStatus body) = None ->
  TwilioWebhooks.handleCallStatus now body callId w = (500, w0).
Proof.
  intros Hl Hst. unfold TwilioWebhooks.handleCallStatus. by rewrite Hl, Hst.
Qed.

Lemma handleCallStatus_unknown now body callId w w0 :
  TwilioWebhooks.lookupCall body callId w = (None, w0) ->
  TwilioWebhooks.handleCallStatus now body callId w = (404, w) /\ w0 = w.
Proof.
  intros Hl. unfold TwilioWebhooks.handleCallStatus. rewrite Hl.
  unfold TwilioWebhooks.lookupCall in Hl.
  repeat case_match; simplify_eq; done.
Qed.

Lemma lookupCall_by_sid body callId w c :
  BroadcastCall.findOneBySid (TwilioWebhooks.CallSid body) (calls w) = Some c ->
  TwilioWebhooks.lookupCall body callId w = (Some c, w).
Proof. intros H. unfold TwilioWebhooks.lookupCall. by rewrite H. Qed.


(** ** Retry policy of [markFailed] *)

Lemma markFailed_status bs now code msg retry c :
  BroadcastCall.status (BroadcastCall.markFailed bs now code msg retry c)
  = if retry && bool_decide (BroadcastCall.attempts c < 2)
    then CallStatus.queued else CallStatus.failed.
Proof.
  unfold BroadcastCall.markFailed. simpl.
  by destruct (retry && bool_decide (BroadcastCall.attempts c < 2)).
Qed.

Lemma markFailed_retryAfter bs now code msg retry c :
  BroadcastCall.retryAfter (BroadcastCall.markFailed bs now code msg retry c)
  = if retry && bool_decide (BroadcastCall.attempts c < 2)
    then Some (now + num_or (Broadcast.retryDelay ∘ Broadcast.config
                               <$> Broadcast.findById (BroadcastCall.broadcast c) bs)
                            300000)
    else BroadcastCall.retryAfter c.
Proof.
  unfold BroadcastCall.markFailed. simpl.
  by destruct (retry && bool_decide (BroadcastCall.attempts c < 2)).
Qed.

(** [markFailed] never touches the attempt counter: only [markCalling]
    counts an attempt, and it runs after the provider accepted the dial. *)
Lemma markFailed_attempts bs now code msg retry c :
  BroadcastCall.attempts (BroadcastCall.markFailed bs now code msg retry c)
  = BroadcastCall.attempts c.
Proof.
  unfold BroadcastCall.markFailed. simpl.
  by destruct (retry && bool_decide (BroadcastCall.attempts c < 2)).
Qed.

(** The retry decision does not read [config.maxRetries]: two campaigns that
    differ in nothing but that setting give the same outcome. *)
Lemma markFailed_ignores_maxRetries id st total r r' delay now code msg retry c :
  BroadcastCall.markFailed [Sample.campaign id st total r delay] now code msg retry c
  = BroadcastCall.markFailed [Sample.campaign id st total r' delay] now code msg retry c.
Proof.
  unfold BroadcastCall.markFailed, Broadcast.findById. simpl.
  by destruct (bool_decide (id = BroadcastCall.broadcast c)).
Qed.

(** C1.  [markFailed(code, message, true)] on a call that has made two
    attempts, in a campaign created with [maxRetries = 5]: the claim's test
    [attempts < maxRetries + 1] holds, yet the call is not re-queued; it gets
    the terminal status ['failed'] and no [retryAfter]. *)
Theorem markFailed_gives_up_after_two_attempts :
  let b := Sample.campaign 1 BroadcastStatus.in_progress 1 5 30000 in
  let c := Sample.call 7 1 "+15551" CallStatus.calling 2 None in
  let c' := BroadcastCall.markFailed [b] 1000 21610 "blocked" true c in
  BroadcastCall.attempts c < Broadcast.maxRetries (Broadcast.config b) + 1
  /\ BroadcastCall.status c' = CallStatus.failed
  /\ BroadcastCall.retryAfter c' = None.
Proof. repeat split; reflexivity. Qed.

(** A dial the provider refuses leaves the row ['queued'] with
    [attempts = 0]: the next tick selects it again as a fresh call. *)
Lemma refused_dial_is_not_counted :
  let b := Sample.campaign 1 BroadcastStatus.in_progress 1 2 30000 in
  let c := Sample.call 7 1 "+15551" CallStatus.queued 0 None in
  let w := Sample.world [c] [b] [] in
  let w' := BroadcastQueueService._processBroadcastQueue
              Sample.provider_rejects 1000 1%nat w in
  (fun c => (BroadcastCall.status c, BroadcastCall.attempts c)) <$> calls w'
  = [(CallStatus.queued, 0)]
  /\ BroadcastQueueService._getNextCalls 1001 1%nat 50 (calls w') = calls w'.
Proof. split; reflexivity. Qed.

(** ** Status updates and terminal statuses *)

(** C2, counterexample.  The webhook records ['completed'] for call 7 (found
    by its id, the SID being backfilled); the dispatcher's [markCalling] on
    the document it had loaded is then saved: the stored status leaves
    ['completed'] for ['calling']. *)
Lemma late_markCalling_regresses_completed :
  let c := Sample.call 7 1 "+15551" CallStatus.queued 0 None in
  let b := Sample.campaign 1 BroadcastStatus.in_progress 1 2 30000 in
  let w := Sample.world [c] [b] [] in
  let w1 := (TwilioWebhooks.handleCallStatus 20
               (Sample.status_body "CA100" "completed")
               (TwilioWebhooks.id_ok 7%nat) w).2 in
  let w2 := save_call (BroadcastCall.markCalling 30 "CA100" c) w1 in
  (BroadcastCall.status <$> BroadcastCall.findById 7%nat (calls w1)
   = Some CallStatus.completed
   /\ CallStatus.completed ∈ spec_terminal)
  /\ BroadcastCall.status <$> BroadcastCall.findById 7%nat (calls w2)
     = Some CallStatus.calling.
Proof. repeat split; try reflexivity. unfold spec_terminal. list_mem. Qed.

(** C2, as the code has it.  Neither update looks at the status the call
    holds, terminal or not: [markCalling] always leaves ['calling'], saved
    as such, and a status webhook that finds the call by its SID and carries
    a status the schema accepts leaves that status. *)
Theorem status_updates_ignore_current_status now sid body callId w c st :
  BroadcastCall.findOneBySid (TwilioWebhooks.CallSid body) (calls w) = Some c ->
  TwilioWebhooks.mappedStatus (TwilioWebhooks.CallStatus body) = Some st ->
  BroadcastCall.status (BroadcastCall.markCalling now sid c) = CallStatus.calling
  /\ BroadcastCall.status
       <$> BroadcastCall.findById (BroadcastCall._id c)
             (calls (save_call (BroadcastCall.markCalling now sid c) w))
     = Some CallStatus.calling
  /\ BroadcastCall.status
       <$> BroadcastCall.findById (BroadcastCall._id c)
             (calls (TwilioWebhooks.handleCallStatus now body callId w).2)
     = Some st.
Proof.
  intros Hsid Hst. apply call_findOneBySid_in in Hsid as Hc. destruct Hc as [_ Hin].
  split; [done|]. split.
  - simpl. by rewrite (call_find_save_same _ _ c).
  - destruct (handleCallStatus_found now body callId w c w st) as [_ ->];
      [by apply lookupCall_by_sid | done |].
    rewrite (call_find_save_same _ _ c); [| by rewrite updatedCall_id | done].
    simpl. by rewrite updatedCall_status.
Qed.

(** The theorem at a call the webhook had already completed. *)
Lemma status_updates_ignore_current_status_witness :
  let c := BroadcastCall.set_callSid (Some "CA100")
             (Sample.call 7 1 "+15551" CallStatus.completed 1 None) in
  let w := Sample.world [c] [] [] in
  BroadcastCall.status (BroadcastCall.markCalling 30 "CA100" c) = CallStatus.calling
  /\ BroadcastCall.status
       <$> BroadcastCall.findById 7%nat
             (calls (save_call (BroadcastCall.markCalling 30 "CA100" c) w))
     = Some CallStatus.calling
  /\ BroadcastCall.status
       <$> BroadcastCall.findById 7%nat
             (calls (TwilioWebhooks.handleCallStatus 40
                       (Sample.status_body "CA100" "ringing")
                       TwilioWebhooks.id_absent w).2)
     = Some CallStatus.ringing.
Proof.
  exact (status_updates_ignore_current_status 30 "CA100"
           (Sample.status_body "CA100" "ringing") TwilioWebhooks.id_absent
           (Sample.world
              [BroadcastCall.set_callSid (Some "CA100")
                 (Sample.call 7 1 "+15551" CallStatus.completed 1 None)] [] [])
           _ CallStatus.ringing eq_refl eq_refl).
Defined.


(** ** Opt-out check of the dial pipeline *)

(** The pipeline's own check is true as soon as the store holds any record
    for the phone, whatever its [expiresAt]. *)
Lemma _isOptedOut_any_record p os :
  BroadcastQueueService._isOptedOut p os = true
  <-> exists o, In o os /\ OptOut.phone o = p.
Proof.
  unfold BroadcastQueueService._isOptedOut, OptOut.exists_.
  rewrite existsb_exists. split; intros (o & Hin & Ho); exists o; split; try done.
  - by apply bool_decide_eq_true in Ho.
  - by apply bool_decide_eq_true.
Qed.

(** The model's static [isOptedOut] asks for a record that is still active. *)
Lemma isOptedOut_active_record now p os :
  OptOut.isOptedOut now p os = true
  <-> exists o, In o os /\ OptOut.phone o = p /\ now < OptOut.expiresAt o.
Proof.
  unfold OptOut.isOptedOut, OptOut.exists_.
  rewrite existsb_exists. split.
  - intros (o & Hin & Ho). apply andb_true_iff in Ho as [H1 H2].
    apply bool_decide_eq_true in H1, H2. eauto.
  - intros (o & Hin & H1 & H2). exists o. split; [done|].
    apply andb_true_iff. split; by apply bool_decide_eq_true.
Qed.

(** C5.  The only opt-out record of +15559 expired at time 5.  At time 10
    [OptOut.isOptedOut] says the phone is not opted out, yet the dial
    pipeline marks the call ['opted_out'] and the provider, who would have
    accepted the call, is never asked: no SID, no attempt. *)
Theorem expired_optout_still_blocks_dial :
  let b := Sample.campaign 1 BroadcastStatus.in_progress 1 2 30000 in
  let c := Sample.call 7 1 "+15559" CallStatus.queued 0 None in
  let w := Sample.world [c] [b] [OptOut.mk "+15559" OptOut.manual 0 5] in
  let w' := (BroadcastQueueService._initiateCall
               Sample.provider_accepts 10 c (b, w)).2 in
  OptOut.isOptedOut 10 "+15559" (optouts w) = false
  /\ (fun c => (BroadcastCall.status c, BroadcastCall.callSid c,
                BroadcastCall.attempts c)) <$> calls w'
     = [(CallStatus.opted_out, None, 0)].
Proof. split; reflexivity. Qed.

(** ** Default retry delay *)

(** C9.  A campaign created without [retryDelay] carries
    [config.retryDelay = 30000], not the schema default 300000; once it is
    stored under a fresh id, [markFailed(…, true)] on any of its calls with
    fewer than two attempts re-queues the call with [retryAfter = now + 30000]. *)
Theorem createBroadcast_retryDelay_30s newId data w :
  BroadcastService.retryDelay data = None ->
  Broadcast.findById newId (broadcasts w) = None ->
  let b := (BroadcastService.createBroadcast newId data w).1 in
  let w' := (BroadcastService.createBroadcast newId data w).2 in
  Broadcast.retryDelay (Broadcast.config b) = 30000
  /\ Broadcast.retryDelay (Broadcast.config b) <> Broadcast.default_retryDelay
  /\ Broadcast.findById newId (broadcasts w') = Some b
  /\ forall c now code msg,
       BroadcastCall.broadcast c = newId ->
       BroadcastCall.attempts c < 2 ->
       let c' := BroadcastCall.markFailed (broadcasts w') now code msg true c in
       BroadcastCall.status c' = CallStatus.queued
       /\ BroadcastCall.retryAfter c' = Some (now + 30000).
Proof.
  intros Hd Hfresh. simpl. rewrite Hd. simpl.
  assert (Hfind :
    Broadcast.findById newId
      (broadcasts w ++
       [Broadcast.mk newId (BroadcastService.name data)
          (BroadcastService.contacts data) BroadcastStatus.draft
          (Broadcast.mkStats (Z.of_nat (length (BroadcastService.contacts data)))
             0 0 0 0 0 (Some 0))
          (Broadcast.mkConfig (num_or (BroadcastService.maxConcurrent data) 50)
             (num_or (BroadcastService.maxRetries data) 2) 30000
             (default Broadcast.default_compliance (BroadcastService.compliance data)))
          None None]) = Some
       (Broadcast.mk newId (BroadcastService.name data)
          (BroadcastService.contacts data) BroadcastStatus.draft
          (Broadcast.mkStats (Z.of_nat (length (BroadcastService.contacts data)))
             0 0 0 0 0 (Some 0))
          (Broadcast.mkConfig (num_or (BroadcastService.maxConcurrent data) 50)
             (num_or (BroadcastService.maxRetries data) 2) 30000
             (default Broadcast.default_compliance (BroadcastService.compliance data)))
          None None)).
  { unfold Broadcast.findById in *. revert Hfresh.
    induction (broadcasts w) as [|x bs IH]; simpl.
    - intros _. by rewrite bool_decide_true.
    - destruct (bool_decide (Broadcast._id x = newId)); [done | apply IH]. }
  do 3 (split; [done|]).
  intros c now code msg Hb Hatt. split.
  - rewrite markFailed_status. by rewrite bool_decide_true.
  - rewrite markFailed_retryAfter. rewrite bool_decide_true by done. simpl.
    by rewrite Hb, Hfind.
Qed.

(** The theorem at the first campaign of an empty store. *)
Lemma createBroadcast_retryDelay_30s_witness :
  let data := BroadcastService.mkCreateData "diwali"
                [Broadcast.mkContact "+15551" (Some "A")] None None None None in
  let w := Sample.world [] [] [] in
  let b := (BroadcastService.createBroadcast 1 data w).1 in
  let w' := (BroadcastService.createBroadcast 1 data w).2 in
  Broadcast.retryDelay (Broadcast.config b) = 30000
  /\ Broadcast.retryDelay (Broadcast.config b) <> Broadcast.default_retryDelay
  /\ Broadcast.findById 1 (broadcasts w') = Some b
  /\ forall c now code msg,
       BroadcastCall.broadcast c = 1%nat ->
       BroadcastCall.attempts c < 2 ->
       let c' := BroadcastCall.markFailed (broadcasts w') now code msg true c in
       BroadcastCall.status c' = CallStatus.queued
       /\ BroadcastCall.retryAfter c' = Some (now + 30000).
Proof.
  exact (createBroadcast_retryDelay_30s 1
           (BroadcastService.mkCreateData "diwali"
              [Broadcast.mkContact "+15551" (Some "A")] None None None None)
           (Sample.world [] [] []) eq_refl eq_refl).
Defined.

(** ** Template validation *)

(** C10.  [validateTemplate] answers [valid = true] for every template, so
    the start handler never sends the 400 ['Invalid message template']
    response, whatever the request and the state. *)
Theorem validateTemplate_always_valid template created newId body w :
  MessagePersonalizer.valid (MessagePersonalizer.validateTemplate template) = true
  /\ BroadcastController.error
       (BroadcastController.startBroadcast created newId body w).1
     <> Some "Invalid message template".
Proof.
  split; [reflexivity|].
  unfold BroadcastController.startBroadcast. simpl.
  repeat case_match; simpl; discriminate.
Qed.


(** ** Recomputed statistics *)

Lemma num_or_0 x : num_or x 0 = default 0 x.
Proof. destruct x as [v|]; simpl; [|done]. by case_decide. Qed.

(** An entry of the [$group] result is the number of the campaign's calls
    holding that status. *)
Lemma aggregateByStatus_lookup bid cs s :
  default 0 (TwilioWebhooks.aggregateByStatus bid cs !! s)
  = BroadcastCall.countDocuments bid [s] cs.
Proof.
  unfold TwilioWebhooks.aggregateByStatus, BroadcastCall.countDocuments.
  induction cs as [|c cs IH]; [done|]. cbn [List.filter foldr].
  destruct (bool_decide_reflect (BroadcastCall.broadcast c = bid)) as [Hb|Hb];
    cbn [andb foldr]; [|done].
  destruct (decide (BroadcastCall.status c = s)) as [Hs|Hs].
  - rewrite bool_decide_true by (subst; list_mem). cbn [length].
    subst s. rewrite lookup_insert_eq, IH. cbn [from_option id]. lia.
  - rewrite bool_decide_false by list_mem.
    by rewrite lookup_insert_ne.
Qed.

(** Counting over a list of statuses adds up the counts of its members. *)
Lemma countDocuments_cons bid s sts cs :
  s ∉ sts ->
  BroadcastCall.countDocuments bid (s :: sts) cs
  = BroadcastCall.countDocuments bid [s] cs + BroadcastCall.countDocuments bid sts cs.
Proof.
  intros Hs. unfold BroadcastCall.countDocuments.
  induction cs as [|c cs IH]; [done|]. cbn [List.filter].
  destruct (bool_decide (BroadcastCall.broadcast c = bid)); cbn [andb]; [|done].
  destruct (decide (BroadcastCall.status c = s)) as [Heq|Hne].
  - rewrite (bool_decide_true (_ ∈ s :: sts)) by list_mem.
    rewrite (bool_decide_true (_ ∈ [s])) by list_mem.
    rewrite (bool_decide_false (_ ∈ sts)) by (by rewrite Heq).
    cbn [length]. lia.
  - destruct (decide (BroadcastCall.status c ∈ sts)) as [Hin|Hin].
    + rewrite (bool_decide_true (_ ∈ s :: sts)) by list_mem.
      rewrite (bool_decide_false (_ ∈ [s])) by list_mem.
      rewrite (bool_decide_true (_ ∈ sts)) by done. cbn [length]. lia.
    + rewrite (bool_decide_false (_ ∈ s :: sts)) by list_mem.
      rewrite (bool_decide_false (_ ∈ [s])) by list_mem.
      rewrite (bool_decide_false (_ ∈ sts)) by done. done.
Qed.

(** When every call of the campaign holds one of [sts], counting over [sts]
    counts the campaign's calls. *)
Lemma countDocuments_all bid sts cs :
  (forall c, In c cs -> BroadcastCall.broadcast c = bid ->
             BroadcastCall.status c ∈ sts) ->
  BroadcastCall.countDocuments bid sts cs
  = Z.of_nat (length (List.filter
      (fun c => bool_decide (BroadcastCall.broadcast c = bid)) cs)).
Proof.
  unfold BroadcastCall.countDocuments. intros Hall. f_equal. f_equal.
  induction cs as [|c cs IH]; [done|]. cbn [List.filter].
  destruct (bool_decide_reflect (BroadcastCall.broadcast c = bid)) as [Hb|Hb];
    cbn [andb].
  - rewrite bool_decide_true by (apply Hall; [by left | done]).
    cbn [length]. f_equal. apply IH. intros d Hd. apply Hall. by right.
  - apply IH. intros d Hd. apply Hall. by right.
Qed.

Lemma refreshedStats_sum b bid cs :
  statsSum (BroadcastService.refreshedStats b (TwilioWebhooks.aggregateByStatus bid cs))
  = BroadcastCall.countDocuments bid bucketed cs.
Proof.
  unfold statsSum, BroadcastService.refreshedStats, bucketed.
  cbn [Broadcast.queued Broadcast.calling Broadcast.answered Broadcast.completed
       Broadcast.failed Broadcast.opted_out from_option id].
  rewrite !num_or_0, !aggregateByStatus_lookup.
  rewrite !(countDocuments_cons _ _ (_ :: _)) by list_mem. lia.
Qed.

Lemma recomputedStats_sum b bid cs :
  let s := TwilioWebhooks.recomputedStats b (TwilioWebhooks.aggregateByStatus bid cs) in
  Broadcast.queued s + Broadcast.calling s + Broadcast.answered s
  + Broadcast.completed s + Broadcast.failed s
  = BroadcastCall.countDocuments bid
      [CallStatus.queued; CallStatus.calling; CallStatus.answered;
       CallStatus.completed; CallStatus.failed] cs.
Proof.
  unfold TwilioWebhooks.recomputedStats.
  cbn [Broadcast.queued Broadcast.calling Broadcast.answered Broadcast.completed
       Broadcast.failed].
  rewrite !num_or_0, !aggregateByStatus_lookup.
  rewrite !(countDocuments_cons _ _ (_ :: _)) by list_mem. lia.
Qed.

(** C3, counterexample.  Campaign 1 has one contact ([stats.total = 1]) and
    its call is ringing.  Both recomputations, the one the status webhook
    runs and the one of [getBroadcastStatus], leave every bucket at 0: the
    six buckets sum to 0, not to [total]. *)
Lemma ringing_call_is_in_no_bucket :
  let c := BroadcastCall.set_callSid (Some "CA100")
             (Sample.call 7 1 "+15551" CallStatus.calling 1 None) in
  let b := Sample.campaign 1 BroadcastStatus.in_progress 1 2 30000 in
  let w := Sample.world [c] [b] [] in
  let w1 := (TwilioWebhooks.handleCallStatus 20
               (Sample.status_body "CA100" "ringing")
               (TwilioWebhooks.id_ok 7%nat) w).2 in
  (fun b => (statsSum (Broadcast.stats b), Broadcast.total (Broadcast.stats b)))
    <$> Broadcast.findById 1%nat (broadcasts w1) = Some (0, 1)
  /\ (fun r => (statsSum (Broadcast.stats r.1), Broadcast.total (Broadcast.stats r.1)))
       <$> BroadcastService.getBroadcastStatus 1%nat w1 = Some (0, 1).
Proof. split; reflexivity. Qed.

(** C3, as the code has it.  For a stored campaign, [getBroadcastStatus]
    keeps [total] and makes the six buckets sum to the number of the
    campaign's calls whose status has a bucket (queued, calling, answered,
    completed, failed, opted_out): the sum is [total] when [total] is the
    number of the campaign's calls and none of them is ringing, in_progress,
    busy, no_answer or cancelled.  [updateBroadcastStats] keeps [total] and
    makes the five buckets it writes sum to the number of calls in those
    five statuses. *)
Theorem recomputed_stats_count_bucketed_calls bid w b0 :
  Broadcast.findById bid (broadcasts w) = Some b0 ->
  (exists b w',
     BroadcastService.getBroadcastStatus bid w = Some (b, w')
     /\ Broadcast.findById bid (broadcasts w') = Some b
     /\ Broadcast.total (Broadcast.stats b) = Broadcast.total (Broadcast.stats b0)
     /\ statsSum (Broadcast.stats b)
        = BroadcastCall.countDocuments bid bucketed (calls w)
     /\ ((forall c, In c (calls w) -> BroadcastCall.broadcast c = bid ->
                    BroadcastCall.status c ∈ bucketed) ->
         Broadcast.total (Broadcast.stats b0)
         = Z.of_nat (length (List.filter
             (fun c => bool_decide (BroadcastCall.broadcast c = bid)) (calls w))) ->
         statsSum (Broadcast.stats b) = Broadcast.total (Broadcast.stats b)))
  /\ (exists b2,
        Broadcast.findById bid (broadcasts (TwilioWebhooks.updateBroadcastStats b0 w))
        = Some b2
        /\ Broadcast.total (Broadcast.stats b2) = Broadcast.total (Broadcast.stats b0)
        /\ Broadcast.queued (Broadcast.stats b2) + Broadcast.calling (Broadcast.stats b2)
           + Broadcast.answered (Broadcast.stats b2)
           + Broadcast.completed (Broadcast.stats b2)
           + Broadcast.failed (Broadcast.stats b2)
           = BroadcastCall.countDocuments bid
               [CallStatus.queued; CallStatus.calling; CallStatus.answered;
                CallStatus.completed; CallStatus.failed] (calls w)).
Proof.
  intros Hfind. destruct (broadcast_findById_id _ _ _ Hfind) as [Hid _].
  split.
  - unfold BroadcastService.getBroadcastStatus. rewrite Hfind.
    eexists _, _. split; [reflexivity|]. simpl.
    rewrite (broadcast_find_save _ _ _ _ Hfind). simpl.
    rewrite decide_True by done. split; [done|]. split; [done|].
    rewrite Hid, refreshedStats_sum. split; [done|].
    intros Hall Htot. rewrite Htot. by apply countDocuments_all.
  - unfold TwilioWebhooks.updateBroadcastStats. simpl.
    rewrite (broadcast_find_save _ _ _ _ Hfind). simpl.
    rewrite decide_True by done. eexists. split; [reflexivity|].
    split; [done|]. rewrite Hid. apply recomputedStats_sum.
Qed.

(** The theorem at a campaign of two contacts, one call completed and one
    opted out. *)
Lemma recomputed_stats_count_bucketed_calls_witness :
  let b0 := Sample.campaign 1 BroadcastStatus.in_progress 2 2 30000 in
  let w := Sample.world
             [Sample.call 7 1 "+15551" CallStatus.completed 1 None;
              Sample.call 8 1 "+15552" CallStatus.opted_out 0 None] [b0] [] in
  exists b w',
    BroadcastService.getBroadcastStatus 1%nat w = Some (b, w')
    /\ statsSum (Broadcast.stats b) = 2.
Proof.
  destruct (recomputed_stats_count_bucketed_calls 1%nat
              (Sample.world
                 [Sample.call 7 1 "+15551" CallStatus.completed 1 None;
                  Sample.call 8 1 "+15552" CallStatus.opted_out 0 None]
                 [Sample.campaign 1 BroadcastStatus.in_progress 2 2 30000] [])
              _ eq_refl) as [(b & w' & Hget & _ & _ & Hsum & _) _].
  exists b, w'. split; [exact Hget | exact Hsum].
Defined.

(** ** Retryable calls and the dispatch batch *)



Lemma In_take {A} (n : nat) (l : list A) x : In x (take n l) -> In x l.
Proof.
  rewrite <- !list_elem_of_In. apply subseteq_take.
Qed.

Lemma getRetryableCalls_sound now bid cs c :
  In c (BroadcastCall.getRetryableCalls now bid cs) ->
  In c cs
  /\ BroadcastCall.broadcast c = bid
  /\ BroadcastCall.status c = CallStatus.queued
  /\ exists t, BroadcastCall.retryAfter c = Some t /\ t ≤ now.
Proof.
  unfold BroadcastCall.getRetryableCalls. intros H.
  apply In_take, filter_In in H as [Hin H].
  repeat (apply andb_true_iff in H as [H ?]).
  repeat match goal with
         | H : bool_decide _ = true |- _ => apply bool_decide_eq_true in H
         end.
  do 3 (split; [done|]).
  unfold BroadcastCall.retryAfter_lte in *.
  destruct (BroadcastCall.retryAfter c) as [t|]; [|done].
  exists t. split; [done|].
  match goal with H : bool_decide _ = true |- _ => by apply bool_decide_eq_true in H end.
Qed.

(** The query's condition is the claim's without [attempts > 0], at
    [maxRetries = 2]. *)
Lemma getRetryableCalls_spec_due now bid cs :
  BroadcastCall.getRetryableCalls now bid cs
  = take 50 (List.filter (spec_due 2 now bid) cs).
Proof. reflexivity. Qed.

Lemma spec_due_true maxRetries now bid c :
  spec_due maxRetries now bid c = true
  <-> BroadcastCall.broadcast c = bid
      /\ BroadcastCall.status c = CallStatus.queued
      /\ BroadcastCall.attempts c < maxRetries
      /\ exists t, BroadcastCall.retryAfter c = Some t /\ t ≤ now.
Proof.
  unfold spec_due. rewrite !andb_true_iff, !bool_decide_eq_true.
  destruct (BroadcastCall.retryAfter c) as [t|].
  - rewrite bool_decide_eq_true. split.
    + intros [[[? ?] ?] ?]. eauto 10.
    + intros (? & ? & ? & t' & [= <-] & ?). done.
  - split; [intros [_ [=]] | intros (_ & _ & _ & t & [=] & _)].
Qed.

Lemma freshCalls_spec_fresh bid lim cs :
  BroadcastQueueService.freshCalls bid lim cs
  = limit lim (List.filter (spec_fresh bid) cs).
Proof. reflexivity. Qed.

Lemma take_submseteq {A} (n : nat) (l : list A) : take n l ⊆+ l.
Proof. apply sublist_submseteq, sublist_take. Qed.

(** C4, counterexample.  Three queued calls of campaign 1 are due at time
    30 ([maxRetries = 2]): call 7 (one attempt, due since 20), call 8 (one
    attempt, due since 10) and call 9 (no attempt, re-queued after a refused
    dial, due since 5).  The code returns them in store order, call 9
    included; the claim's query is call 8 then call 7.  And of 51 calls
    with one attempt each, all due, the code returns 50, the claim's query
    all 51. *)
Lemma getRetryableCalls_unsorted_and_unattempted :
  let cs := [Sample.call 7 1 "+15551" CallStatus.queued 1 (Some 20);
             Sample.call 8 1 "+15552" CallStatus.queued 1 (Some 10);
             Sample.call 9 1 "+15553" CallStatus.queued 0 (Some 5)] in
  let many := (fun i => Sample.call i 1 "+15550" CallStatus.queued 1 (Some 10))
                <$> seq 100 51 in
  BroadcastCall._id <$> BroadcastCall.getRetryableCalls 30 1%nat cs
  = [7; 8; 9]%nat
  /\ BroadcastCall._id <$> spec_getRetryable 2 30 1%nat cs = [8; 7]%nat
  /\ BroadcastCall.getRetryableCalls 30 1%nat cs <> spec_getRetryable 2 30 1%nat cs
  /\ length (BroadcastCall.getRetryableCalls 30 1%nat many) = 50%nat
  /\ length (spec_getRetryable 2 30 1%nat many) = 51%nat.
Proof.
  cbn zeta. split; [reflexivity|]. split; [reflexivity|].
  split; [discriminate|]. split; vm_compute; reflexivity.
Qed.

(** C4, as the code has it.  For a stored campaign whose
    [config.maxRetries] is 2 and every limit: the calls the retryable-call
    query returns are calls with status queued, [attempts < maxRetries] and
    [retryAfter <= now] (a call with no attempt included), each returned as
    often as it is stored, all of them when they are at most 50 and 50 of
    them otherwise, in no stated order; the fresh calls are queued calls
    with no attempt, [limit] of them when the limit is positive and that
    many exist; and the dispatch batch is the fresh calls followed by the
    first calls the query returned, as many as
    [max 0 (limit - number of fresh calls)] allows. *)
Theorem retryable_query_and_batch now lim bid b w :
  Broadcast.findById bid (broadcasts w) = Some b ->
  Broadcast.maxRetries (Broadcast.config b) = 2 ->
  let maxRetries := Broadcast.maxRetries (Broadcast.config b) in
  let due := List.filter (spec_due maxRetries now bid) (calls w) in
  let unattempted := List.filter (spec_fresh bid) (calls w) in
  let retry := BroadcastCall.getRetryableCalls now bid (calls w) in
  let fresh := BroadcastQueueService.freshCalls bid lim (calls w) in
  (forall c, In c due <->
     In c (calls w)
     /\ BroadcastCall.broadcast c = bid
     /\ BroadcastCall.status c = CallStatus.queued
     /\ BroadcastCall.attempts c < maxRetries
     /\ exists t, BroadcastCall.retryAfter c = Some t /\ t ≤ now)
  /\ retry ⊆+ due
  /\ length retry = Nat.min 50 (length due)
  /\ ((length due <= 50)%nat -> retry ≡ₚ due)
  /\ (forall c, In c unattempted <->
        In c (calls w)
        /\ BroadcastCall.broadcast c = bid
        /\ BroadcastCall.status c = CallStatus.queued
        /\ BroadcastCall.attempts c = 0)
  /\ fresh ⊆+ unattempted
  /\ (0 < lim ->
      Z.of_nat (length fresh) = Z.min lim (Z.of_nat (length unattempted)))
  /\ exists taken,
       BroadcastQueueService._getNextCalls now bid lim (calls w) = fresh ++ taken
       /\ taken `prefix_of` retry
       /\ Z.of_nat (length taken)
          = Z.min (Z.max 0 (lim - Z.of_nat (length fresh)))
                  (Z.of_nat (length retry)).
Proof.
  intros _ Hmax. cbn zeta. rewrite Hmax.
  rewrite getRetryableCalls_spec_due, freshCalls_spec_fresh.
  set (due := List.filter (spec_due 2 now bid) (calls w)).
  set (una := List.filter (spec_fresh bid) (calls w)).
  split.
  { intros c. unfold due. rewrite filter_In, spec_due_true. tauto. }
  split; [apply take_submseteq|].
  split; [apply length_take|].
  split; [intros Hle; by rewrite take_ge|].
  split.
  { intros c. unfold una, spec_fresh.
    rewrite filter_In, !andb_true_iff, !bool_decide_eq_true. tauto. }
  split.
  { unfold limit. case_decide; [done | apply take_submseteq]. }
  split.
  { intros Hpos. unfold limit. rewrite decide_False by lia.
    rewrite length_take. lia. }
  unfold BroadcastQueueService._getNextCalls.
  rewrite getRetryableCalls_spec_due, freshCalls_spec_fresh.
  fold due una. case_bool_decide as Hlim.
  - exists []. rewrite app_nil_r. split; [done|]. split; [apply prefix_nil|].
    simpl. lia.
  - eexists. split; [reflexivity|].
    unfold BroadcastQueueService.slice0.
    split; [apply prefix_take|]. rewrite length_take. lia.
Qed.

(** The theorem at campaign 1 ([maxRetries = 2]) with a fresh call, a call
    to retry that is due and one that is not, and two free slots: the batch
    is the fresh call and the due one. *)
Lemma retryable_query_and_batch_witness :
  let w := Sample.world
             [Sample.call 7 1 "+15551" CallStatus.queued 0 None;
              Sample.call 8 1 "+15552" CallStatus.queued 1 (Some 10);
              Sample.call 9 1 "+15553" CallStatus.queued 1 (Some 90)]
             [Sample.campaign 1 BroadcastStatus.in_progress 3 2 30000] [] in
  length (BroadcastCall.getRetryableCalls 30 1%nat (calls w)) = 1%nat
  /\ BroadcastCall._id
       <$> BroadcastQueueService._getNextCalls 30 1%nat 2 (calls w)
     = [7; 8]%nat.
Proof.
  cbn zeta. split; [|reflexivity].
  exact (proj1 (proj2 (proj2
    (retryable_query_and_batch 30 2 1%nat
       (Sample.campaign 1 BroadcastStatus.in_progress 3 2 30000)
       (Sample.world
          [Sample.call 7 1 "+15551" CallStatus.queued 0 None;
           Sample.call 8 1 "+15552" CallStatus.queued 1 (Some 10);
           Sample.call 9 1 "+15553" CallStatus.queued 1 (Some 90)]
          [Sample.campaign 1 BroadcastStatus.in_progress 3 2 30000] [])
       eq_refl eq_refl)))).
Defined.


(** ** Reconciliation of the status webhook *)

Lemma In_call_save c cs d :
  In d (BroadcastCall.save c cs) -> In d cs \/ d = c.
Proof.
  unfold BroadcastCall.save. rewrite <- !list_elem_of_In, list_elem_of_fmap.
  intros (x & -> & Hx). case_decide; [by right | by left].
Qed.

(** What the lookup phase does to the store: nothing, or the backfill of
    one row's [callSid]. *)
Lemma lookupCall_store body callId w r w0 :
  TwilioWebhooks.lookupCall body callId w = (r, w0) ->
  w0 = w
  \/ exists n c, callId = TwilioWebhooks.id_ok n
       /\ BroadcastCall.findOneBySid (TwilioWebhooks.CallSid body) (calls w) = None
       /\ BroadcastCall.findById n (calls w) = Some c
       /\ TwilioWebhooks.truthy (BroadcastCall.callSid c) = false
       /\ r = Some (BroadcastCall.set_callSid (Some (TwilioWebhooks.CallSid body)) c)
       /\ w0 = save_call
                 (BroadcastCall.set_callSid (Some (TwilioWebhooks.CallSid body)) c) w.
Proof.
  unfold TwilioWebhooks.lookupCall. intros H.
  destruct (BroadcastCall.findOneBySid _ _) as [c|] eqn:Hsid; [simplify_eq; by left|].
  destruct callId as [| |n]; [simplify_eq; by left .. |].
  destruct (BroadcastCall.findById n (calls w)) as [c|] eqn:Hid;
    [|simplify_eq; by left].
  destruct (TwilioWebhooks.truthy (BroadcastCall.callSid c)) eqn:Ht; simpl in H;
    simplify_eq; [by left|].
  right. by exists n, c.
Qed.

(** C7.  The status webhook never adds or removes a call row: the store
    keeps the same ids in the same order, and a row that changed is the row
    of the resolved call.  A call found by [CallSid] is the one updated
    (the answer is not 404), whatever the URL says.  Otherwise the call found
    under the URL's id is the one updated, and when it had no [callSid] the
    webhook's SID is stored on it.  When neither lookup finds a call the
    answer is 404 and nothing changes. *)
Theorem handleCallStatus_reconciles now body callId w :
  let r := TwilioWebhooks.handleCallStatus now body callId w in
  let sid := TwilioWebhooks.CallSid body in
  BroadcastCall._id <$> calls r.2 = BroadcastCall._id <$> calls w
  /\ (forall c, BroadcastCall.findOneBySid sid (calls w) = Some c ->
        r.1 <> 404
        /\ forall d, In d (calls r.2) ->
             In d (calls w) \/ BroadcastCall._id d = BroadcastCall._id c)
  /\ (forall n c,
        BroadcastCall.findOneBySid sid (calls w) = None ->
        callId = TwilioWebhooks.id_ok n ->
        BroadcastCall.findById n (calls w) = Some c ->
        r.1 <> 404
        /\ (forall d, In d (calls r.2) ->
              In d (calls w) \/ BroadcastCall._id d = BroadcastCall._id c)
        /\ (TwilioWebhooks.truthy (BroadcastCall.callSid c) = false ->
            BroadcastCall.callSid <$> BroadcastCall.findById n (calls r.2)
            = Some (Some sid)))
  /\ (BroadcastCall.findOneBySid sid (calls w) = None ->
      (forall n, callId = TwilioWebhooks.id_ok n ->
                 BroadcastCall.findById n (calls w) = None) ->
      r = (404, w)).
Proof.
  cbn zeta. split; [|split; [|split]].
  - (* same rows *)
    destruct (TwilioWebhooks.lookupCall body callId w) as [[c|] w0] eqn:Hl.
    + assert (Hw0 : BroadcastCall._id <$> calls w0 = BroadcastCall._id <$> calls w).
      { destruct (lookupCall_store _ _ _ _ _ Hl)
          as [->|(n & c0 & _ & _ & _ & _ & _ & ->)]; [done|].
        apply call_save_ids. }
      destruct (TwilioWebhooks.mappedStatus (TwilioWebhooks.CallStatus body))
        as [st|] eqn:Hst.
      * destruct (handleCallStatus_found now body callId w c w0 st Hl Hst) as [_ ->].
        by rewrite call_save_ids.
      * by rewrite (handleCallStatus_rejected now body callId w c w0 Hl Hst).
    + by destruct (handleCallStatus_unknown now body callId w w0 Hl) as [-> _].
  - (* found by SID *)
    intros c Hsid. pose proof (lookupCall_by_sid body callId w c Hsid) as Hl.
    destruct (TwilioWebhooks.mappedStatus (TwilioWebhooks.CallStatus body))
      as [st|] eqn:Hst.
    + destruct (handleCallStatus_found now body callId w c w st Hl Hst) as [-> ->].
      split; [done|]. intros d Hd. apply In_call_save in Hd as [Hd| ->];
        [by left | right; apply updatedCall_id].
    + rewrite (handleCallStatus_rejected now body callId w c w Hl Hst).
      split; [done|]. intros d Hd. by left.
  - (* found by the id of the URL *)
    intros n c Hsid -> Hid.
    apply call_findById_id in Hid as Hc. destruct Hc as [Hn Hin].
    set (c1 := BroadcastCall.set_callSid (Some (TwilioWebhooks.CallSid body)) c).
    destruct (TwilioWebhooks.truthy (BroadcastCall.callSid c)) eqn:Ht.
    + assert (Hl : TwilioWebhooks.lookupCall body (TwilioWebhooks.id_ok n) w
                   = (Some c, w)).
      { unfold TwilioWebhooks.lookupCall. by rewrite Hsid, Hid, Ht. }
      destruct (TwilioWebhooks.mappedStatus (TwilioWebhooks.CallStatus body))
        as [st|] eqn:Hst.
      * destruct (handleCallStatus_found now body _ w c w st Hl Hst) as [-> ->].
        split; [done|]. split; [|done].
        intros d Hd. apply In_call_save in Hd as [Hd| ->];
          [by left | right; apply updatedCall_id].
      * rewrite (handleCallStatus_rejected now body _ w c w Hl Hst).
        split; [done|]. split; [|done]. intros d Hd. by left.
    + assert (Hl : TwilioWebhooks.lookupCall body (TwilioWebhooks.id_ok n) w
                   = (Some c1, save_call c1 w)).
      { unfold TwilioWebhooks.lookupCall. by rewrite Hsid, Hid, Ht. }
      assert (Hin1 : In c1 (calls (save_call c1 w))).
      { pose proof (call_find_save_same c1 (calls w) c eq_refl Hin) as Hf.
        by apply call_findById_id in Hf as [_ ?]. }
      destruct (TwilioWebhooks.mappedStatus (TwilioWebhooks.CallStatus body))
        as [st|] eqn:Hst.
      * destruct (handleCallStatus_found now body _ w c1 _ st Hl Hst) as [-> ->].
        split; [done|]. split.
        -- intros d Hd. apply In_call_save in Hd as [Hd| ->];
             [| right; by rewrite updatedCall_id].
           apply In_call_save in Hd as [Hd| ->]; [by left | by right].
        -- intros _. rewrite <- Hn.
           change (BroadcastCall._id c) with (BroadcastCall._id c1).
           rewrite (call_find_save_same _ _ c1); [| by rewrite updatedCall_id | done].
           simpl. by rewrite updatedCall_callSid.
      * rewrite (handleCallStatus_rejected now body _ w c1 _ Hl Hst).
        split; [done|]. split.
        -- intros d Hd. apply In_call_save in Hd as [Hd| ->]; [by left | by right].
        -- intros _. rewrite <- Hn. simpl.
           by rewrite (call_find_save_same c1 (calls w) c eq_refl Hin).
  - (* unknown call *)
    intros Hsid Hnone.
    assert (Hl : TwilioWebhooks.lookupCall body callId w = (None, w)).
    { unfold TwilioWebhooks.lookupCall. rewrite Hsid.
      destruct callId as [| |n]; [done..|]. by rewrite (Hnone n eq_refl). }
    by destruct (handleCallStatus_unknown now body callId w w Hl) as [-> _].
Qed.


(** ** Cancelling a campaign *)

Lemma stopBroadcast_stops bid w :
  bid ∉ activeBroadcasts (BroadcastQueueService.stopBroadcast bid w).
Proof.
  unfold BroadcastQueueService.stopBroadcast.
  case_bool_decide as Hin; [|done]. simpl.
  apply not_elem_of_difference. right. by apply elem_of_singleton.
Qed.

Lemma stopBroadcast_db bid w :
  calls (BroadcastQueueService.stopBroadcast bid w) = calls w
  /\ broadcasts (BroadcastQueueService.stopBroadcast bid w) = broadcasts w.
Proof. unfold BroadcastQueueService.stopBroadcast. by case_bool_decide. Qed.

(** What [updateMany({ broadcast, status: 'queued' }, { status: 'cancelled' })]
    does to each row, position by position. *)
Lemma cancelQueued_pointwise bid cs :
  Forall2
    (fun c c' =>
       if decide (BroadcastCall.broadcast c = bid
                  /\ BroadcastCall.status c = CallStatus.queued)
       then BroadcastCall._id c' = BroadcastCall._id c
            /\ BroadcastCall.broadcast c' = bid
            /\ BroadcastCall.phone c' = BroadcastCall.phone c
            /\ BroadcastCall.status c' = CallStatus.cancelled
       else c' = c)
    cs (BroadcastService.cancelQueued bid cs).
Proof.
  unfold BroadcastService.cancelQueued.
  induction cs as [|c cs IH]; [constructor|].
  rewrite fmap_cons. constructor; [|exact IH].
  destruct (decide (BroadcastCall.broadcast c = bid
                    /\ BroadcastCall.status c = CallStatus.queued)) as [[Hb Hs]|Hn].
  - rewrite (bool_decide_true _ Hb), (bool_decide_true _ Hs). by destruct c.
  - destruct (bool_decide_reflect (BroadcastCall.broadcast c = bid));
      destruct (bool_decide_reflect (BroadcastCall.status c = CallStatus.queued));
      simpl; tauto.
Qed.

(** C8, counterexample.  Campaign 1 is completed, its only call completed.
    Cancelling it answers 200 with [success: true], and the stored campaign
    is now ['cancelled'], its [completedAt] moved to the time of the call. *)
Lemma cancel_overwrites_completed :
  let b := Broadcast.set_completedAt (Some 50)
             (Sample.campaign 1 BroadcastStatus.completed 1 2 30000) in
  let w := Sample.world [Sample.call 7 1 "+15551" CallStatus.completed 1 None]
             [b] [] in
  let r := BroadcastController.cancelBroadcast 100 1%nat w in
  Broadcast.status <$> Broadcast.findById 1%nat (broadcasts w)
  = Some BroadcastStatus.completed
  /\ BroadcastController.success r.1 = true
  /\ (fun b => (Broadcast.status b, Broadcast.completedAt b))
       <$> Broadcast.findById 1%nat (broadcasts r.2)
     = Some (BroadcastStatus.cancelled, Some 100).
Proof. repeat split; reflexivity. Qed.

(** C8, as the code has it.  Cancelling a stored campaign whose status is
    ['completed'] succeeds (200, [success: true]) and is not a no-op: the
    campaign is stored with status ['cancelled'] and with [completedAt] set
    to the time of the cancel, its other fields as they were; every one of
    its calls that was ['queued'] has status ['cancelled'], and every other
    call row is as it was. *)
Theorem cancel_completed_campaign_cancels now bid w b :
  Broadcast.findById bid (broadcasts w) = Some b ->
  Broadcast.status b = BroadcastStatus.completed ->
  exists b' w',
    BroadcastController.cancelBroadcast now bid w
    = (BroadcastController.mkResponse 200 None true, w')
    /\ BroadcastService.cancelBroadcast now
         (BroadcastQueueService.request_string bid) w = Some (b', w')
    /\ Broadcast.findById bid (broadcasts w') = Some b'
    /\ Broadcast.status b' = BroadcastStatus.cancelled
    /\ Broadcast.completedAt b' = Some now
    /\ (Broadcast._id b', Broadcast.name b', Broadcast.contacts b',
        Broadcast.stats b', Broadcast.config b', Broadcast.startedAt b')
       = (bid, Broadcast.name b, Broadcast.contacts b,
          Broadcast.stats b, Broadcast.config b, Broadcast.startedAt b)
    /\ Forall2
         (fun c c' =>
            if decide (BroadcastCall.broadcast c = bid
                       /\ BroadcastCall.status c = CallStatus.queued)
            then BroadcastCall._id c' = BroadcastCall._id c
                 /\ BroadcastCall.broadcast c' = bid
                 /\ BroadcastCall.phone c' = BroadcastCall.phone c
                 /\ BroadcastCall.status c' = CallStatus.cancelled
            else c' = c)
         (calls w) (calls w').
Proof.
  intros Hfind Hst. destruct (broadcast_findById_id _ _ _ Hfind) as [Hid _].
  unfold BroadcastController.cancelBroadcast, BroadcastService.cancelBroadcast.
  cbn [BroadcastQueueService.key_id BroadcastQueueService.stopBroadcastAs].
  rewrite Hfind. eexists _, _. split; [reflexivity|]. split; [reflexivity|].
  split.
  { simpl. rewrite (broadcast_find_save _ _ _ _ Hfind). simpl.
    by rewrite decide_True. }
  split; [done|]. split; [done|]. split.
  { destruct b; simpl in *. by subst. }
  simpl. apply cancelQueued_pointwise.
Qed.

(** The theorem at a completed campaign with one completed call and one
    call a late webhook had put back to ['queued']: the campaign is stored
    cancelled, the queued call cancelled, the completed one untouched. *)
Lemma cancel_completed_campaign_cancels_witness :
  let w := Sample.world
             [Sample.call 7 1 "+15551" CallStatus.completed 1 None;
              Sample.call 8 1 "+15552" CallStatus.queued 1 None]
             [Sample.campaign 1 BroadcastStatus.completed 2 2 30000] [] in
  exists b' w',
    BroadcastController.cancelBroadcast 100 1%nat w
    = (BroadcastController.mkResponse 200 None true, w')
    /\ Broadcast.findById 1%nat (broadcasts w') = Some b'
    /\ Broadcast.status b' = BroadcastStatus.cancelled
    /\ Broadcast.completedAt b' = Some 100.
Proof.
  destruct (cancel_completed_campaign_cancels 100 1%nat
              (Sample.world
                 [Sample.call 7 1 "+15551" CallStatus.completed 1 None;
                  Sample.call 8 1 "+15552" CallStatus.queued 1 None]
                 [Sample.campaign 1 BroadcastStatus.completed 2 2 30000] [])
              _ eq_refl eq_refl)
    as (b' & w' & Hc & _ & Hf & Hs & Hat & _).
  exists b', w'. split; [exact Hc|]. split; [exact Hf|].
  split; [exact Hs | exact Hat].
Defined.


(** ** Completion of a campaign by the dispatch tick *)

Lemma updateStatus_fields now s b :
  Broadcast.status (Broadcast.updateStatus now s b) = s
  /\ Broadcast._id (Broadcast.updateStatus now s b) = Broadcast._id b
  /\ Broadcast.config (Broadcast.updateStatus now s b) = Broadcast.config b
  /\ Broadcast.stats (Broadcast.updateStatus now s b) = Broadcast.stats b.
Proof. unfold Broadcast.updateStatus. by repeat (case_match; simpl). Qed.








(** * Further properties of the dispatch engine *)

Lemma limit_subseteq {A} (n : Z) (l : list A) x : In x (limit n l) -> In x l.
Proof. unfold limit. case_decide; [done | apply In_take]. Qed.

Lemma limit_length {A} (n : Z) (l : list A) :
  0 < n -> Z.of_nat (length (limit n l)) ≤ n.
Proof.
  intros Hn. unfold limit. rewrite decide_False by lia. rewrite length_take. lia.
Qed.

Lemma freshCalls_sound bid lim cs c :
  In c (BroadcastQueueService.freshCalls bid lim cs) ->
  In c cs /\ BroadcastCall.broadcast c = bid
  /\ BroadcastCall.status c = CallStatus.queued /\ BroadcastCall.attempts c = 0.
Proof.
  unfold BroadcastQueueService.freshCalls. intros H.
  apply limit_subseteq, filter_In in H as [Hin H].
  repeat (apply andb_true_iff in H as [H ?]).
  repeat match goal with
         | H : bool_decide _ = true |- _ => apply bool_decide_eq_true in H
         end.
  done.
Qed.

Lemma _getNextCalls_sound now bid lim cs c :
  In c (BroadcastQueueService._getNextCalls now bid lim cs) ->
  In c cs /\ BroadcastCall.broadcast c = bid
  /\ BroadcastCall.status c = CallStatus.queued.
Proof.
  unfold BroadcastQueueService._getNextCalls. case_bool_decide as Hlim.
  - intros H. by apply freshCalls_sound in H as (? & ? & ? & _).
  - rewrite in_app_iff. intros [H|H].
    + by apply freshCalls_sound in H as (? & ? & ? & _).
    + apply In_take, getRetryableCalls_sound in H as (? & ? & ? & _). done.
Qed.

Lemma _getNextCalls_length now bid lim cs :
  0 < lim ->
  Z.of_nat (length (BroadcastQueueService._getNextCalls now bid lim cs)) ≤ lim.
Proof.
  intros Hlim. unfold BroadcastQueueService._getNextCalls.
  pose proof (limit_length lim
    (List.filter
       (fun c => bool_decide (BroadcastCall.broadcast c = bid)
                 && bool_decide (BroadcastCall.status c = CallStatus.queued)
                 && bool_decide (BroadcastCall.attempts c = 0)) cs) Hlim) as Hf.
  fold (BroadcastQueueService.freshCalls bid lim cs) in Hf.
  case_bool_decide as Hge; [done|].
  rewrite length_app. unfold BroadcastQueueService.slice0. rewrite length_take. lia.
Qed.

(** X1.  For a positive limit, the batch [_getNextCalls] selects holds at
    most [limit] calls, and each of them is a stored call of the campaign
    whose status is ['queued']. *)
Theorem batch_within_limit_and_queued now bid lim cs :
  0 < lim ->
  Z.of_nat (length (BroadcastQueueService._getNextCalls now bid lim cs)) ≤ lim
  /\ forall c, In c (BroadcastQueueService._getNextCalls now bid lim cs) ->
       In c cs /\ BroadcastCall.broadcast c = bid
       /\ BroadcastCall.status c = CallStatus.queued.
Proof.
  intros Hlim. split; [by apply _getNextCalls_length|].
  intros c. apply _getNextCalls_sound.
Qed.

(** The theorem at a store of three queued calls and a limit of two. *)
Lemma batch_within_limit_and_queued_witness :
  let cs := [Sample.call 7 1 "+15551" CallStatus.queued 0 None;
             Sample.call 8 1 "+15552" CallStatus.queued 0 None;
             Sample.call 9 1 "+15553" CallStatus.queued 1 (Some 5)] in
  Z.of_nat (length (BroadcastQueueService._getNextCalls 30 1%nat 2 cs)) ≤ 2
  /\ forall c, In c (BroadcastQueueService._getNextCalls 30 1%nat 2 cs) ->
       In c cs /\ BroadcastCall.broadcast c = 1%nat
       /\ BroadcastCall.status c = CallStatus.queued.
Proof.
  apply (batch_within_limit_and_queued 30 1%nat 2
           [Sample.call 7 1 "+15551" CallStatus.queued 0 None;
            Sample.call 8 1 "+15552" CallStatus.queued 0 None;
            Sample.call 9 1 "+15553" CallStatus.queued 1 (Some 5)]).
  reflexivity.
Defined.

(** ** What dialling one call does to the call collection *)

Lemma markFailed_id bs now code msg retry c :
  BroadcastCall._id (BroadcastCall.markFailed bs now code msg retry c)
  = BroadcastCall._id c.
Proof.
  unfold BroadcastCall.markFailed. simpl.
  by destruct (retry && bool_decide (BroadcastCall.attempts c < 2)).
Qed.

Lemma _initiateCall_calls dial now c b w :
  calls (BroadcastQueueService._initiateCall dial now c (b, w)).2 = calls w
  \/ exists call',
       BroadcastCall._id call' = BroadcastCall._id c
       /\ calls (BroadcastQueueService._initiateCall dial now c (b, w)).2
          = BroadcastCall.save call' (calls w).
Proof.
  unfold BroadcastQueueService._initiateCall.
  destruct (BroadcastCall.findById _ _) as [call|] eqn:Hf; [|by left].
  apply call_findById_id in Hf as [Hid _].
  destruct (_ && _);
    [right; eexists; split; [|reflexivity]; exact Hid|].
  destruct (BroadcastQueueService._isOptedOut _ _);
    [right; eexists; split; [|reflexivity]; exact Hid|].
  destruct (dial call) as [sid|code message];
    [right; eexists; split; [|reflexivity]; exact Hid|].
  cbn [calls emit]. rewrite <- Hid.
  destruct (BroadcastCall.findById (BroadcastCall._id call) (calls w))
    as [call2|] eqn:Hf2; [|by left].
  apply call_findById_id in Hf2 as [Hid2 _].
  right. exists (BroadcastCall.markFailed (broadcasts w) now (num_or code 500)
                   message true call2).
  split; [|done]. rewrite markFailed_id. done.
Qed.

Lemma save_no_such_id c cs :
  (forall d, In d cs -> BroadcastCall._id d <> BroadcastCall._id c) ->
  BroadcastCall.save c cs = cs.
Proof.
  unfold BroadcastCall.save. induction cs as [|x cs IH]; intros H; [done|].
  cbn [fmap list_fmap]. rewrite decide_False by (apply H; by left).
  f_equal. apply IH. intros d Hd. apply H. by right.
Qed.

Lemma In_call_save_other c cs d :
  In d cs -> BroadcastCall._id d <> BroadcastCall._id c ->
  In d (BroadcastCall.save c cs).
Proof.
  intros Hin Hne. unfold BroadcastCall.save.
  rewrite <- list_elem_of_In, list_elem_of_fmap. exists d.
  rewrite decide_False by done. by rewrite list_elem_of_In.
Qed.

Lemma unique_id_same_row cs (a b : BroadcastCall.t) :
  NoDup (BroadcastCall._id <$> cs) -> In a cs -> In b cs ->
  BroadcastCall._id a = BroadcastCall._id b -> a = b.
Proof.
  induction cs as [|x cs IH]; [done|]. cbn [fmap list_fmap].
  rewrite NoDup_cons. intros [Hx Hnd] [->|Ha] [->|Hb] Hid; [done| | |by apply IH].
  - exfalso. apply Hx. rewrite Hid. apply list_elem_of_fmap. exists b.
    by rewrite list_elem_of_In.
  - exfalso. apply Hx. rewrite <- Hid. apply list_elem_of_fmap. exists a.
    by rewrite list_elem_of_In.
Qed.

(** With unique ids, saving one document changes at most one row, so a
    count over the collection grows by at most one. *)
Lemma save_count_le (f : BroadcastCall.t -> bool) c cs :
  NoDup (BroadcastCall._id <$> cs) ->
  (length (List.filter f (BroadcastCall.save c cs))
   ≤ S (length (List.filter f cs)))%nat.
Proof.
  induction cs as [|x cs IH]; [simpl; lia|].
  cbn [fmap list_fmap]. rewrite NoDup_cons. intros [Hx Hnd].
  unfold BroadcastCall.save. cbn [fmap list_fmap].
  fold (BroadcastCall.save c cs).
  destruct (decide (BroadcastCall._id x = BroadcastCall._id c)) as [Hid|Hid].
  - rewrite save_no_such_id.
    + cbn [List.filter]. destruct (f c), (f x); simpl; lia.
    + intros d Hd Heq. apply Hx. rewrite Hid, <- Heq.
      apply list_elem_of_fmap. exists d. by rewrite list_elem_of_In.
  - cbn [List.filter]. specialize (IH Hnd). destruct (f x); simpl; lia.
Qed.

Lemma countDocuments_save_le bid sts c cs :
  NoDup (BroadcastCall._id <$> cs) ->
  BroadcastCall.countDocuments bid sts (BroadcastCall.save c cs)
  ≤ BroadcastCall.countDocuments bid sts cs + 1.
Proof.
  intros Hnd. unfold BroadcastCall.countDocuments.
  pose proof (save_count_le
    (fun c => bool_decide (BroadcastCall.broadcast c = bid)
              && bool_decide (BroadcastCall.status c ∈ sts)) c cs Hnd).
  lia.
Qed.

(** Dialling a batch: no row is added or removed, a count over the calls
    grows by at most the size of the batch, and a row whose id is the id of
    no call of the batch stays as it is. *)
Lemma batch_calls dial now bid sts l b w :
  let r := foldl (fun bw c => BroadcastQueueService._initiateCall dial now c bw)
                 (b, w) l in
  BroadcastCall._id <$> calls r.2 = BroadcastCall._id <$> calls w
  /\ (NoDup (BroadcastCall._id <$> calls w) ->
      BroadcastCall.countDocuments bid sts (calls r.2)
      ≤ BroadcastCall.countDocuments bid sts (calls w) + Z.of_nat (length l))
  /\ (forall d, In d (calls w) ->
        (forall c, In c l -> BroadcastCall._id c <> BroadcastCall._id d) ->
        In d (calls r.2)).
Proof.
  revert b w. induction l as [|c l IH]; intros b w.
  { cbn. split; [done|]. split; [lia | done]. }
  cbn [foldl].
  destruct (BroadcastQueueService._initiateCall dial now c (b, w)) as [b1 w1] eqn:E.
  pose proof (_initiateCall_calls dial now c b w) as Hc. rewrite E in Hc.
  cbn [snd] in Hc.
  destruct (IH b1 w1) as (Hids & Hcount & Hkeep). cbn zeta.
  assert (Hids1 : BroadcastCall._id <$> calls w1 = BroadcastCall._id <$> calls w).
  { destruct Hc as [->|(c' & _ & ->)]; [done | apply call_save_ids]. }
  split; [congruence|]. split.
  - intros Hnd. rewrite <- Hids1 in Hnd. specialize (Hcount Hnd).
    rewrite Hids1 in Hnd.
    assert (BroadcastCall.countDocuments bid sts (calls w1)
            ≤ BroadcastCall.countDocuments bid sts (calls w) + 1).
    { destruct Hc as [->|(c' & _ & ->)]; [lia | by apply countDocuments_save_le]. }
    cbn [length]. lia.
  - intros d Hd Hl. apply Hkeep.
    + destruct Hc as [->|(c' & Hid & ->)]; [done|].
      apply In_call_save_other; [done|]. rewrite Hid.
      intros Heq. apply (Hl c); [by left | done].
    + intros c0 Hc0. apply Hl. by right.
Qed.

(** The calls after a tick: those before it, or those left by dialling the
    batch selected for the free slots. *)
Lemma tick_calls dial now bid w :
  let w' := BroadcastQueueService._processBroadcastQueue dial now bid w in
  calls w' = calls w
  \/ exists b b1 w1,
       Broadcast.findById bid (broadcasts w) = Some b
       /\ calls w1 = calls w
       /\ 0 < num_or (Some (Broadcast.maxConcurrent (Broadcast.config b))) 50
              - BroadcastCall.countDocuments bid
                  BroadcastQueueService.activeStatuses (calls w)
       /\ calls w'
          = calls (foldl
              (fun bw c => BroadcastQueueService._initiateCall dial now c bw)
              (b1, w1)
              (BroadcastQueueService._getNextCalls now bid
                 (num_or (Some (Broadcast.maxConcurrent (Broadcast.config b))) 50
                  - BroadcastCall.countDocuments bid
                      BroadcastQueueService.activeStatuses (calls w))
                 (calls w))).2.
Proof.
  cbn zeta. unfold BroadcastQueueService._processBroadcastQueue.
  destruct (Broadcast.findById bid (broadcasts w)) as [b|] eqn:Hfind;
    [|left; apply stopBroadcast_db].
  case_bool_decide as Hst; [left; apply stopBroadcast_db|].
  set (bw := if bool_decide (Broadcast.status b = BroadcastStatus.queued)
             then (Broadcast.updateStatus now BroadcastStatus.in_progress b,
                   save_broadcast
                     (Broadcast.updateStatus now BroadcastStatus.in_progress b) w)
             else (b, w)).
  assert (Hbw : Broadcast.config bw.1 = Broadcast.config b /\ calls bw.2 = calls w).
  { subst bw. case_bool_decide; [|done]. split; [|done].
    apply updateStatus_fields. }
  destruct bw as [b1 w1]. cbn [fst snd] in Hbw. destruct Hbw as [Hcfg Hcalls].
  rewrite Hcfg, Hcalls.
  case_bool_decide as Hslots; [by left|].
  case_bool_decide as Hlen.
  { case_bool_decide; [|by left]. left.
    destruct (stopBroadcast_db bid
                (save_broadcast
                   (Broadcast.updateStatus now BroadcastStatus.completed b1) w1))
      as [-> _]. done. }
  right. exists b, b1, w1. split; [done|]. split; [done|]. split; [lia|].
  by destruct (foldl _ _ _).
Qed.

(** X2.  With unique call ids, a tick on a stored campaign never leaves
    more calls of the campaign in an active status (calling, ringing,
    in progress) than the larger of their number before the tick and
    [config.maxConcurrent || 50]. *)
Theorem tick_keeps_concurrency_bound dial now bid w b :
  NoDup (BroadcastCall._id <$> calls w) ->
  Broadcast.findById bid (broadcasts w) = Some b ->
  BroadcastCall.countDocuments bid BroadcastQueueService.activeStatuses
    (calls (BroadcastQueueService._processBroadcastQueue dial now bid w))
  ≤ Z.max
      (BroadcastCall.countDocuments bid BroadcastQueueService.activeStatuses
         (calls w))
      (num_or (Some (Broadcast.maxConcurrent (Broadcast.config b))) 50).
Proof.
  intros Hnd Hfind.
  destruct (tick_calls dial now bid w)
    as [->|(b' & b1 & w1 & Hfind' & Hcalls & Hslots & ->)]; [lia|].
  rewrite Hfind in Hfind'. injection Hfind' as <-.
  destruct (batch_calls dial now bid BroadcastQueueService.activeStatuses
              (BroadcastQueueService._getNextCalls now bid
                 (num_or (Some (Broadcast.maxConcurrent (Broadcast.config b))) 50
                  - BroadcastCall.countDocuments bid
                      BroadcastQueueService.activeStatuses (calls w))
                 (calls w)) b1 w1) as (_ & Hcount & _).
  rewrite Hcalls in Hcount. specialize (Hcount Hnd).
  pose proof (_getNextCalls_length now bid _ (calls w) Hslots). lia.
Qed.

(** The theorem at a campaign limited to one call at a time with two queued
    calls: one call is active after the tick. *)
Lemma tick_keeps_concurrency_bound_witness :
  let b := Broadcast.mk 1 "diwali" [] BroadcastStatus.in_progress
             (Broadcast.mkStats 2 0 0 0 0 0 (Some 0))
             (Broadcast.mkConfig 1 2 30000 Broadcast.default_compliance)
             None None in
  let w := Sample.world
             [Sample.call 7 1 "+15551" CallStatus.queued 0 None;
              Sample.call 8 1 "+15552" CallStatus.queued 0 None] [b] [] in
  BroadcastCall.countDocuments 1%nat BroadcastQueueService.activeStatuses
    (calls (BroadcastQueueService._processBroadcastQueue
              Sample.provider_accepts 100 1%nat w))
  ≤ Z.max (BroadcastCall.countDocuments 1%nat
             BroadcastQueueService.activeStatuses (calls w)) 1.
Proof.
  apply (tick_keeps_concurrency_bound Sample.provider_accepts 100 1%nat
           (Sample.world
              [Sample.call 7 1 "+15551" CallStatus.queued 0 None;
               Sample.call 8 1 "+15552" CallStatus.queued 0 None]
              [Broadcast.mk 1 "diwali" [] BroadcastStatus.in_progress
                 (Broadcast.mkStats 2 0 0 0 0 0 (Some 0))
                 (Broadcast.mkConfig 1 2 30000 Broadcast.default_compliance)
                 None None] [])
           (Broadcast.mk 1 "diwali" [] BroadcastStatus.in_progress
              (Broadcast.mkStats 2 0 0 0 0 0 (Some 0))
              (Broadcast.mkConfig 1 2 30000 Broadcast.default_compliance)
              None None)).
  - apply (bool_decide_unpack _). vm_compute. exact I.
  - reflexivity.
Defined.

(** X3.  A tick adds and removes no call row, and with unique ids it leaves
    every row as it is except queued calls of its own campaign: calls of
    other campaigns and calls that are in flight or finished are not
    touched. *)
Theorem tick_touches_only_queued_calls dial now bid w d :
  NoDup (BroadcastCall._id <$> calls w) ->
  In d (calls w) ->
  ~ (BroadcastCall.broadcast d = bid
     /\ BroadcastCall.status d = CallStatus.queued) ->
  let w' := BroadcastQueueService._processBroadcastQueue dial now bid w in
  BroadcastCall._id <$> calls w' = BroadcastCall._id <$> calls w
  /\ In d (calls w').
Proof.
  intros Hnd Hd Hprot. cbn zeta.
  destruct (tick_calls dial now bid w)
    as [->|(b & b1 & w1 & _ & Hcalls & _ & ->)]; [done|].
  destruct (batch_calls dial now bid [] 
              (BroadcastQueueService._getNextCalls now bid
                 (num_or (Some (Broadcast.maxConcurrent (Broadcast.config b))) 50
                  - BroadcastCall.countDocuments bid
                      BroadcastQueueService.activeStatuses (calls w))
                 (calls w)) b1 w1) as (Hids & _ & Hkeep).
  rewrite Hcalls in Hids, Hkeep. split; [done|].
  apply Hkeep; [done|]. intros c Hc Hid.
  apply _getNextCalls_sound in Hc as (Hin & Hb & Hs).
  assert (c = d) as -> by by apply (unique_id_same_row (calls w)).
  by apply Hprot.
Qed.

(** The theorem at a tick that dials call 7 while call 8 is ringing. *)
Lemma tick_touches_only_queued_calls_witness :
  let d := Sample.call 8 1 "+15552" CallStatus.ringing 1 None in
  let w := Sample.world [Sample.call 7 1 "+15551" CallStatus.queued 0 None; d]
             [Sample.campaign 1 BroadcastStatus.in_progress 2 2 30000] [] in
  let w' := BroadcastQueueService._processBroadcastQueue
              Sample.provider_accepts 100 1%nat w in
  BroadcastCall._id <$> calls w' = BroadcastCall._id <$> calls w
  /\ In d (calls w').
Proof.
  apply (tick_touches_only_queued_calls Sample.provider_accepts 100 1%nat
           (Sample.world
              [Sample.call 7 1 "+15551" CallStatus.queued 0 None;
               Sample.call 8 1 "+15552" CallStatus.ringing 1 None]
              [Sample.campaign 1 BroadcastStatus.in_progress 2 2 30000] [])
           (Sample.call 8 1 "+15552" CallStatus.ringing 1 None)).
  - apply (bool_decide_unpack _). vm_compute. exact I.
  - simpl. tauto.
  - simpl. intros [_ H]. discriminate H.
Defined.

(** X4.  When the opt-out store holds a record for the phone of the stored
    call, the dial pipeline does not consult the provider (its outcome is
    the same whatever the provider would answer): the row is saved as
    ['opted_out'] with [optedOut = true], its attempts and [callSid] are
    those it had, and the campaign document's [opted_out] counter is one
    more than it was, a counter the stored campaign lacks counting as the
    schema default 0. *)
Theorem opted_out_phone_is_not_dialled dial dial' now c b w call :
  BroadcastCall.findById (BroadcastCall._id c) (calls w) = Some call ->
  BroadcastQueueService._isOptedOut (BroadcastCall.phone call) (optouts w) = true ->
  let r := BroadcastQueueService._initiateCall dial now c (b, w) in
  r = BroadcastQueueService._initiateCall dial' now c (b, w)
  /\ (exists call',
        BroadcastCall.findById (BroadcastCall._id c) (calls r.2) = Some call'
        /\ BroadcastCall.status call' = CallStatus.opted_out
        /\ BroadcastCall.optedOut call' = true
        /\ BroadcastCall.attempts call' = BroadcastCall.attempts call
        /\ BroadcastCall.callSid call' = BroadcastCall.callSid call)
  /\ Broadcast.opted_out (Broadcast.stats r.1)
     = Some (default 0 (Broadcast.opted_out (Broadcast.stats b)) + 1).
Proof.
  intros Hf Hopt. cbn zeta. unfold BroadcastQueueService._initiateCall.
  rewrite Hf. unfold BroadcastQueueService._checkDND.
  rewrite (bool_decide_false (allowed = blocked)) by done.
  rewrite andb_false_r. cbn [calls emit optouts]. rewrite Hopt.
  split; [done|]. split; [|done].
  exists (BroadcastCall.markOptedOut now call). cbn [snd calls emit save_broadcast
    set_broadcasts save_call set_calls].
  apply call_findById_id in Hf as Hc. destruct Hc as [Hid Hin].
  rewrite <- Hid.
  rewrite (call_find_save_same (BroadcastCall.markOptedOut now call) (calls w) call);
    done.
Qed.

(** The theorem at a call to a phone with an opt-out record. *)
Lemma opted_out_phone_is_not_dialled_witness :
  let c := Sample.call 7 1 "+15559" CallStatus.queued 0 None in
  let b := Sample.campaign 1 BroadcastStatus.in_progress 1 2 30000 in
  let w := Sample.world [c] [b] [OptOut.mk "+15559" OptOut.manual 0 1000] in
  BroadcastQueueService._initiateCall Sample.provider_accepts 10 c (b, w)
  = BroadcastQueueService._initiateCall Sample.provider_rejects 10 c (b, w).
Proof.
  exact (proj1 (opted_out_phone_is_not_dialled
                  Sample.provider_accepts Sample.provider_rejects 10
                  (Sample.call 7 1 "+15559" CallStatus.queued 0 None)
                  (Sample.campaign 1 BroadcastStatus.in_progress 1 2 30000)
                  (Sample.world
                     [Sample.call 7 1 "+15559" CallStatus.queued 0 None]
                     [Sample.campaign 1 BroadcastStatus.in_progress 1 2 30000]
                     [OptOut.mk "+15559" OptOut.manual 0 1000])
                  _ eq_refl eq_refl)).
Defined.

Lemma filter_length_le' {A} (f : A -> bool) (l : list A) :
  (length (List.filter f l) ≤ length l)%nat.
Proof. induction l as [|x l IH]; simpl; [lia|]. destruct (f x); simpl; lia. Qed.

(** X5.  The two queries of [_getNextCalls] overlap: a queued call of the
    campaign with no attempt and a [retryAfter] that is due (a call re-queued
    after a refused dial) is returned by both.  When the limit leaves room
    for every stored call twice (and the store holds at most 50 calls), the
    batch is the whole fresh list followed by the whole retry list, so such a
    call is in the batch twice. *)
Theorem due_unattempted_call_is_selected_twice now bid lim cs c :
  2 * Z.of_nat (length cs) ≤ lim ->
  (length cs ≤ 50)%nat ->
  In c cs ->
  BroadcastCall.broadcast c = bid ->
  BroadcastCall.status c = CallStatus.queued ->
  BroadcastCall.attempts c = 0 ->
  BroadcastCall.retryAfter_lte now c = true ->
  BroadcastQueueService._getNextCalls now bid lim cs
  = BroadcastQueueService.freshCalls bid lim cs
    ++ BroadcastCall.getRetryableCalls now bid cs
  /\ In c (BroadcastQueueService.freshCalls bid lim cs)
  /\ In c (BroadcastCall.getRetryableCalls now bid cs).
Proof.
  intros Hlim H50 Hin Hb Hs Ha Hr.
  assert (Hpos : 0 < lim).
  { destruct cs; [done|]. cbn [length] in Hlim. lia. }
  set (fp := fun c => bool_decide (BroadcastCall.broadcast c = bid)
                      && bool_decide (BroadcastCall.status c = CallStatus.queued)
                      && bool_decide (BroadcastCall.attempts c = 0)).
  set (rp := fun c => bool_decide (BroadcastCall.broadcast c = bid)
                      && bool_decide (BroadcastCall.status c = CallStatus.queued)
                      && bool_decide (BroadcastCall.attempts c < 2)
                      && BroadcastCall.retryAfter_lte now c).
  pose proof (filter_length_le' fp cs) as Hfl.
  pose proof (filter_length_le' rp cs) as Hrl.
  assert (Hfresh : BroadcastQueueService.freshCalls bid lim cs = List.filter fp cs).
  { unfold BroadcastQueueService.freshCalls, limit. fold fp.
    rewrite decide_False by lia. apply take_ge. lia. }
  assert (Hretry : BroadcastCall.getRetryableCalls now bid cs = List.filter rp cs).
  { unfold BroadcastCall.getRetryableCalls. fold rp. apply take_ge. lia. }
  split; [|split].
  - unfold BroadcastQueueService._getNextCalls. rewrite Hretry, Hfresh.
    rewrite bool_decide_false by lia. f_equal.
    unfold BroadcastQueueService.slice0. apply take_ge. lia.
  - rewrite Hfresh. apply filter_In. split; [done|]. subst fp. cbn beta.
    by rewrite !bool_decide_true.
  - rewrite Hretry. apply filter_In. split; [done|]. subst rp. cbn beta.
    rewrite !bool_decide_true by (done || lia). by rewrite Hr.
Qed.

(** The theorem at the call a refused dial left behind, with the default
    fifty slots. *)
Lemma due_unattempted_call_is_selected_twice_witness :
  let c := Sample.call 7 1 "+15551" CallStatus.queued 0 (Some 30010) in
  BroadcastQueueService._getNextCalls 40000 1%nat 50 [c] = [c; c].
Proof.
  exact (proj1 (due_unattempted_call_is_selected_twice 40000 1%nat 50
                  [Sample.call 7 1 "+15551" CallStatus.queued 0 (Some 30010)]
                  (Sample.call 7 1 "+15551" CallStatus.queued 0 (Some 30010))
                  ltac:(vm_compute; discriminate) ltac:(simpl; lia)
                  ltac:(simpl; tauto) eq_refl eq_refl eq_refl eq_refl)).
Defined.


(** * Opt-out store and keypress webhook *)

Lemma updateFirst_keeps_phone_and_expiry now p src os :
  (fun o => (OptOut.phone o, OptOut.expiresAt o)) <$> OptOut.updateFirst now p src os
  = (fun o => (OptOut.phone o, OptOut.expiresAt o)) <$> os.
Proof.
  induction os as [|o os IH]; [done|]. cbn [OptOut.updateFirst].
  case_bool_decide as Hp; cbn [fmap list_fmap]; [by rewrite Hp|].
  f_equal. apply IH.
Qed.

Lemma existsb_by_phone_and_expiry (g : string * Z -> bool) os os' :
  (fun o => (OptOut.phone o, OptOut.expiresAt o)) <$> os
  = (fun o => (OptOut.phone o, OptOut.expiresAt o)) <$> os' ->
  existsb (fun o => g (OptOut.phone o, OptOut.expiresAt o)) os
  = existsb (fun o => g (OptOut.phone o, OptOut.expiresAt o)) os'.
Proof.
  revert os'. induction os as [|o os IH]; intros [|o' os'] H; try done.
  cbn [fmap list_fmap] in H. injection H as Hp He Hrest.
  cbn [existsb]. rewrite Hp, He. f_equal. by apply IH.
Qed.

Lemma _isOptedOut_app p os os' :
  BroadcastQueueService._isOptedOut p (os ++ os')
  = BroadcastQueueService._isOptedOut p os
    || BroadcastQueueService._isOptedOut p os'.
Proof. apply existsb_app. Qed.

Lemma isOptedOut_app now p os os' :
  OptOut.isOptedOut now p (os ++ os')
  = OptOut.isOptedOut now p os || OptOut.isOptedOut now p os'.
Proof. apply existsb_app. Qed.

Lemma upsert_existing now ins p src os :
  BroadcastQueueService._isOptedOut p os = true ->
  OptOut.upsert now ins p src os = OptOut.updateFirst now p src os.
Proof.
  unfold OptOut.upsert, BroadcastQueueService._isOptedOut. by intros ->.
Qed.

Lemma upsert_new now ins p src os :
  BroadcastQueueService._isOptedOut p os = false ->
  OptOut.upsert now ins p src os = os ++ [OptOut.mk p src now ins].
Proof.
  unfold OptOut.upsert, BroadcastQueueService._isOptedOut. by intros ->.
Qed.

Lemma upsert_checks now ins p src os q now' :
  BroadcastQueueService._isOptedOut q (OptOut.upsert now ins p src os)
  = BroadcastQueueService._isOptedOut q os || bool_decide (p = q)
  /\ OptOut.isOptedOut now' q (OptOut.upsert now ins p src os)
     = if BroadcastQueueService._isOptedOut p os
       then OptOut.isOptedOut now' q os
       else OptOut.isOptedOut now' q os
            || (bool_decide (p = q) && bool_decide (now' < ins)).
Proof.
  destruct (BroadcastQueueService._isOptedOut p os) eqn:Hex.
  - rewrite upsert_existing by done.
    pose proof (updateFirst_keeps_phone_and_expiry now p src os) as Hk.
    split.
    + transitivity (BroadcastQueueService._isOptedOut q os).
      * exact (existsb_by_phone_and_expiry
                 (fun x => bool_decide (x.1 = q)) _ _ Hk).
      * destruct (bool_decide_reflect (p = q)) as [<-|]; [by rewrite Hex|].
        by rewrite orb_false_r.
    + exact (existsb_by_phone_and_expiry
               (fun x => bool_decide (x.1 = q) && bool_decide (now' < x.2)) _ _ Hk).
  - rewrite upsert_new by done. rewrite _isOptedOut_app, isOptedOut_app.
    split; [f_equal | f_equal];
      unfold BroadcastQueueService._isOptedOut, OptOut.isOptedOut, OptOut.exists_;
      cbn; by rewrite orb_false_r.
Qed.

(** X6.  After [addOptOut] the dial pipeline's check holds for the phone,
    and the checks of every other phone are as before.  Opting out a phone
    that already has a record does not renew it: [isOptedOut] answers at any
    time what it answered on the old store, so an expired opt-out stays
    expired.  For a phone without a record, [isOptedOut] holds exactly until
    the inserted record expires. *)
Theorem addOptOut_round_trip now ins p src os :
  BroadcastQueueService._isOptedOut p (OptOut.addOptOut now ins p src os) = true
  /\ (forall q now', q <> p ->
        BroadcastQueueService._isOptedOut q (OptOut.addOptOut now ins p src os)
        = BroadcastQueueService._isOptedOut q os
        /\ OptOut.isOptedOut now' q (OptOut.addOptOut now ins p src os)
           = OptOut.isOptedOut now' q os)
  /\ (forall now',
        OptOut.isOptedOut now' p (OptOut.addOptOut now ins p src os)
        = if BroadcastQueueService._isOptedOut p os
          then OptOut.isOptedOut now' p os
          else bool_decide (now' < ins)).
Proof.
  unfold OptOut.addOptOut. split; [|split].
  - destruct (upsert_checks now ins p src os p 0) as [-> _].
    rewrite bool_decide_true by done. apply orb_true_r.
  - intros q now' Hq. destruct (upsert_checks now ins p src os q now') as [-> ->].
    rewrite bool_decide_false by done. rewrite orb_false_r. split; [done|].
    by destruct (BroadcastQueueService._isOptedOut p os); rewrite ?orb_false_r.
  - intros now'. destruct (upsert_checks now ins p src os p now') as [_ ->].
    destruct (BroadcastQueueService._isOptedOut p os) eqn:Hex; [done|].
    rewrite bool_decide_true by done. cbn [andb].
    assert (OptOut.isOptedOut now' p os = false) as ->; [|done].
    apply not_true_is_false. intros Ha.
    apply isOptedOut_active_record in Ha as (o & Hin & Hp & _).
    assert (BroadcastQueueService._isOptedOut p os = true); [|congruence].
    apply _isOptedOut_any_record. eauto.
Qed.

(** X7.  The keypress webhook answers 404 and changes nothing when no call
    carries the [CallSid]; for a digit other than 9 it answers
    "Invalid option." and changes nothing.  For the digit 9 it saves the
    call as ['opted_out'] with [optedOut = true], after which the dial
    pipeline's opt-out check holds for the call's phone; the campaigns (and
    so their statistics) and the emitted messages are left as they were. *)
Theorem handleKeypress_opts_out now ins sid digits w :
  let r := TwilioWebhooks.handleKeypress now ins sid digits w in
  (BroadcastCall.findOneBySid sid (calls w) = None ->
   r = (TwilioWebhooks.keypress_not_found, w))
  /\ (forall call,
        BroadcastCall.findOneBySid sid (calls w) = Some call ->
        digits <> "9" ->
        r = (TwilioWebhooks.keypress_say_and_hangup "Invalid option.", w))
  /\ (forall call,
        BroadcastCall.findOneBySid sid (calls w) = Some call ->
        digits = "9" ->
        r.1 = TwilioWebhooks.keypress_say_and_hangup
                "You will no longer receive these calls. Thank you."
        /\ BroadcastCall.findById (BroadcastCall._id call) (calls r.2)
           = Some (BroadcastCall.markOptedOut now call)
        /\ BroadcastCall.status (BroadcastCall.markOptedOut now call)
           = CallStatus.opted_out
        /\ BroadcastCall.optedOut (BroadcastCall.markOptedOut now call) = true
        /\ BroadcastQueueService._isOptedOut (BroadcastCall.phone call)
             (optouts r.2) = true
        /\ broadcasts r.2 = broadcasts w
        /\ events r.2 = events w).
Proof.
  cbn zeta. unfold TwilioWebhooks.handleKeypress. split; [|split].
  - by intros ->.
  - intros call -> Hd. by rewrite bool_decide_false.
  - intros call Hf ->. rewrite Hf. rewrite bool_decide_true by done.
    apply call_findOneBySid_in in Hf as [_ Hin].
    cbn [fst snd calls optouts broadcasts events set_optouts save_call set_calls].
    split; [done|]. split.
    { by rewrite (call_find_save_same _ _ call). }
    do 2 (split; [done|]). split; [|done].
    destruct (upsert_checks now ins (BroadcastCall.phone call)
                OptOut.broadcast_keypress (optouts w)
                (BroadcastCall.phone call) 0) as [H _].
    rewrite bool_decide_true, orb_true_r in H by done. exact H.
Qed.


(** * Cancelling and deleting campaigns, the ticker registry *)

Lemma cancelQueued_ids bid cs :
  BroadcastCall._id <$> BroadcastService.cancelQueued bid cs
  = BroadcastCall._id <$> cs.
Proof.
  unfold BroadcastService.cancelQueued. rewrite <- list_fmap_compose.
  apply list_fmap_ext. intros _ c _. cbn. by destruct (_ && _).
Qed.

Lemma stopBroadcast_registry bid w :
  activeBroadcasts (BroadcastQueueService.stopBroadcast bid w)
  = activeBroadcasts w ∖ {[bid]}.
Proof.
  unfold BroadcastQueueService.stopBroadcast.
  case_bool_decide as Hin; [done|]. apply leibniz_equiv.
  intros x. rewrite elem_of_difference, elem_of_singleton.
  split; [|tauto]. intros Hx. split; [done|]. congruence.
Qed.

Lemma stopBroadcast_rest bid w :
  calls (BroadcastQueueService.stopBroadcast bid w) = calls w
  /\ broadcasts (BroadcastQueueService.stopBroadcast bid w) = broadcasts w
  /\ optouts (BroadcastQueueService.stopBroadcast bid w) = optouts w
  /\ events (BroadcastQueueService.stopBroadcast bid w) = events w.
Proof. unfold BroadcastQueueService.stopBroadcast. by case_bool_decide. Qed.

Lemma cancelQueued_not_queued bid cs c :
  In c (BroadcastService.cancelQueued bid cs) ->
  BroadcastCall.broadcast c = bid ->
  BroadcastCall.status c <> CallStatus.queued.
Proof.
  unfold BroadcastService.cancelQueued.
  rewrite <- list_elem_of_In, list_elem_of_fmap. intros (d & -> & _).
  destruct (bool_decide_reflect (BroadcastCall.broadcast d = bid)) as [Hb|Hb];
    destruct (bool_decide_reflect (BroadcastCall.status d = CallStatus.queued))
      as [Hs|Hs]; cbn [andb]; done.
Qed.

(** X8.  Cancelling a stored campaign through the cancel handler, whatever
    its status: the campaign is stored as ['cancelled'], no call row is added
    or removed, and none of its calls is ['queued'] any more.  The handler
    passes the request's id, a string, to the queue service, where no ticker
    is registered under it: the registry is left as it was, so a ticker
    registered for the campaign stays registered.  The next tick of that
    ticker dials nothing: it leaves both collections, the opt-outs and the
    emitted messages as they are, and unregisters the ticker. *)
Theorem cancel_stops_dispatch now bid w b :
  Broadcast.findById bid (broadcasts w) = Some b ->
  exists b' w',
    BroadcastController.cancelBroadcast now bid w
    = (BroadcastController.mkResponse 200 None true, w')
    /\ Broadcast.findById bid (broadcasts w') = Some b'
    /\ Broadcast.status b' = BroadcastStatus.cancelled
    /\ BroadcastCall._id <$> calls w' = BroadcastCall._id <$> calls w
    /\ (forall c, In c (calls w') -> BroadcastCall.broadcast c = bid ->
          BroadcastCall.status c <> CallStatus.queued)
    /\ activeBroadcasts w' = activeBroadcasts w
    /\ forall dial now',
         let w'' := BroadcastQueueService._processBroadcastQueue
                      dial now' bid w' in
         calls w'' = calls w'
         /\ broadcasts w'' = broadcasts w'
         /\ optouts w'' = optouts w'
         /\ events w'' = events w'
         /\ activeBroadcasts w'' = activeBroadcasts w ∖ {[bid]}.
Proof.
  intros Hfind. destruct (broadcast_findById_id _ _ _ Hfind) as [Hid _].
  unfold BroadcastController.cancelBroadcast, BroadcastService.cancelBroadcast.
  cbn [BroadcastQueueService.key_id BroadcastQueueService.stopBroadcastAs].
  rewrite Hfind.
  set (b' := Broadcast.updateStatus now BroadcastStatus.cancelled b).
  match goal with |- context [(_, ?x) = (_, _)] => set (w' := x) end.
  exists b', w'. split; [reflexivity|].
  destruct (updateStatus_fields now BroadcastStatus.cancelled b) as (Hs & Hi & _).
  fold b' in Hs, Hi.
  assert (Hwb : broadcasts w' = Broadcast.save b' (broadcasts w)) by done.
  assert (Hwc : calls w' = BroadcastService.cancelQueued bid (calls w)) by done.
  assert (Hwa : activeBroadcasts w' = activeBroadcasts w) by done.
  clearbody w'.
  assert (Hf' : Broadcast.findById bid (broadcasts w') = Some b').
  { rewrite Hwb, (broadcast_find_save _ _ _ _ Hfind).
    rewrite decide_True; [done | congruence]. }
  split; [exact Hf'|]. split; [exact Hs|]. rewrite Hwc.
  split; [apply cancelQueued_ids|]. split; [apply cancelQueued_not_queued|].
  split; [exact Hwa|].
  intros dial now'. cbn zeta.
  unfold BroadcastQueueService._processBroadcastQueue.
  rewrite Hf', Hs. rewrite bool_decide_true by list_mem.
  destruct (stopBroadcast_rest bid w') as (-> & -> & -> & ->).
  rewrite stopBroadcast_registry, Hwa, Hwc. done.
Qed.

(** The theorem at a campaign in progress with one queued call and one call
    in flight, its ticker registered: after the cancel the ticker is still
    registered. *)
Lemma cancel_stops_dispatch_witness :
  let w := Sample.world
             [Sample.call 7 1 "+15551" CallStatus.calling 1 None;
              Sample.call 8 1 "+15552" CallStatus.queued 0 None]
             [Sample.campaign 1 BroadcastStatus.in_progress 2 2 30000] [] in
  exists w',
    (BroadcastController.cancelBroadcast 100 1%nat w).2 = w'
    /\ BroadcastCall.status <$> calls w'
       = [CallStatus.calling; CallStatus.cancelled]
    /\ activeBroadcasts w' = {[1%nat]}.
Proof.
  destruct (cancel_stops_dispatch 100 1%nat
              (Sample.world
                 [Sample.call 7 1 "+15551" CallStatus.calling 1 None;
                  Sample.call 8 1 "+15552" CallStatus.queued 0 None]
                 [Sample.campaign 1 BroadcastStatus.in_progress 2 2 30000] [])
              _ eq_refl) as (b' & w' & Hc & _ & _ & _ & _ & Ha & _).
  exists w'. split; [by rewrite Hc|]. split; [|exact Ha].
  by injection Hc as <-.
Defined.

Lemma deleteFirst_find bid bs id :
  NoDup (Broadcast._id <$> bs) ->
  Broadcast.findById id (BroadcastService.deleteFirst bid bs)
  = if decide (id = bid) then None else Broadcast.findById id bs.
Proof.
  unfold Broadcast.findById.
  induction bs as [|b bs IH]; cbn [fmap list_fmap]; [by case_decide|].
  rewrite NoDup_cons. intros [Hb Hnd]. cbn [BroadcastService.deleteFirst find].
  destruct (bool_decide_reflect (Broadcast._id b = bid)) as [Hbid|Hbid].
  - destruct (decide (id = bid)) as [->|Hne].
    + destruct (find _ bs) as [x|] eqn:Hx; [|done]. exfalso.
      apply find_some in Hx as [Hin Hx]. apply bool_decide_eq_true in Hx.
      apply Hb. rewrite Hbid, <- Hx. apply list_elem_of_fmap. exists x.
      by rewrite list_elem_of_In.
    + rewrite bool_decide_false by congruence. done.
  - cbn [find]. specialize (IH Hnd).
    destruct (bool_decide_reflect (Broadcast._id b = id)) as [Hi|Hi]; [|exact IH].
    rewrite decide_False by congruence. done.
Qed.

(** X9.  Deleting a campaign through the delete handler (campaign ids
    being unique): for an unknown id it answers 500 and changes nothing;
    otherwise it answers 200, the campaign can no longer be found, the other
    campaigns are found as before, and the call collection is what it was
    without the rows of the campaign.  The handler passes the request's id,
    a string, to the queue service, where no ticker is registered under it:
    whatever the campaign's status, the registry is left as it was.  A tick
    that fires afterwards unregisters the ticker and leaves both collections
    alone. *)
Theorem deleteBroadcast_removes_campaign bid w :
  NoDup (Broadcast._id <$> broadcasts w) ->
  match Broadcast.findById bid (broadcasts w) with
  | None =>
    BroadcastController.deleteBroadcast bid w
    = (BroadcastController.mkResponse 500 (Some "Failed to delete broadcast")
         false, w)
  | Some b =>
    exists w',
      BroadcastController.deleteBroadcast bid w
      = (BroadcastController.mkResponse 200 None true, w')
      /\ Broadcast.findById bid (broadcasts w') = None
      /\ (forall id, id <> bid ->
            Broadcast.findById id (broadcasts w')
            = Broadcast.findById id (broadcasts w))
      /\ calls w'
         = List.filter
             (fun c => negb (bool_decide (BroadcastCall.broadcast c = bid)))
             (calls w)
      /\ activeBroadcasts w' = activeBroadcasts w
      /\ forall dial now',
           let w'' := BroadcastQueueService._processBroadcastQueue
                        dial now' bid w' in
           activeBroadcasts w'' = activeBroadcasts w ∖ {[bid]}
           /\ calls w'' = calls w'
           /\ broadcasts w'' = broadcasts w'
  end.
Proof.
  intros Hnd.
  unfold BroadcastController.deleteBroadcast, BroadcastService.deleteBroadcast.
  cbn [BroadcastQueueService.key_id BroadcastQueueService.stopBroadcastAs].
  destruct (Broadcast.findById bid (broadcasts w)) as [b|] eqn:Hfind; [|done].
  rewrite Tauto.if_same.
  match goal with |- context [(_, ?x) = (_, _)] => set (w' := x) end.
  exists w'. split; [reflexivity|].
  assert (Hwb : broadcasts w' = BroadcastService.deleteFirst bid (broadcasts w))
    by done.
  assert (Hwc : calls w'
                = List.filter
                    (fun c => negb (bool_decide (BroadcastCall.broadcast c = bid)))
                    (calls w)) by done.
  assert (Hwa : activeBroadcasts w' = activeBroadcasts w) by done.
  clearbody w'. rewrite Hwb.
  assert (Hgone : Broadcast.findById bid
                    (BroadcastService.deleteFirst bid (broadcasts w)) = None).
  { rewrite deleteFirst_find by done. by rewrite decide_True. }
  split; [exact Hgone|]. split.
  { intros id Hid. rewrite deleteFirst_find by done. by rewrite decide_False. }
  do 2 (split; [done|]).
  intros dial now'. cbn zeta.
  unfold BroadcastQueueService._processBroadcastQueue.
  rewrite Hwb, Hgone. rewrite stopBroadcast_registry, Hwa.
  destruct (stopBroadcast_rest bid w') as (-> & -> & _). by rewrite Hwb.
Qed.

(** The theorem at a campaign in progress whose ticker is registered: the
    deletion leaves the ticker registered. *)
Lemma deleteBroadcast_removes_campaign_witness :
  let w := Sample.world [Sample.call 7 1 "+15551" CallStatus.queued 0 None]
             [Sample.campaign 1 BroadcastStatus.in_progress 1 2 30000] [] in
  exists w',
    (BroadcastController.deleteBroadcast 1%nat w).2 = w'
    /\ calls w' = []
    /\ activeBroadcasts w' = {[1%nat]}.
Proof.
  destruct (deleteBroadcast_removes_campaign 1%nat
              (Sample.world [Sample.call 7 1 "+15551" CallStatus.queued 0 None]
                 [Sample.campaign 1 BroadcastStatus.in_progress 1 2 30000] [])
              ltac:(apply (bool_decide_unpack _); vm_compute; exact I))
    as (w' & Hd & _ & _ & Hc & Ha & _).
  exists w'. split; [by rewrite Hd|]. split; [exact Hc | exact Ha].
Defined.

(** X10.  The ticker registry: registering a campaign twice is registering
    it once; after [startBroadcast] the campaign is registered and after
    [stopBroadcast] it is not; neither touches the registration of another
    campaign; and the number of active broadcasts grows by one exactly when
    the campaign was not registered yet. *)
Theorem ticker_registry bid bid' w :
  BroadcastQueueService.startBroadcast bid
    (BroadcastQueueService.startBroadcast bid w)
  = BroadcastQueueService.startBroadcast bid w
  /\ bid ∈ activeBroadcasts (BroadcastQueueService.startBroadcast bid w)
  /\ (bid ∉ activeBroadcasts (BroadcastQueueService.stopBroadcast bid w))
  /\ (bid' <> bid ->
      (bid' ∈ activeBroadcasts (BroadcastQueueService.startBroadcast bid w)
       <-> bid' ∈ activeBroadcasts w)
      /\ (bid' ∈ activeBroadcasts (BroadcastQueueService.stopBroadcast bid w)
          <-> bid' ∈ activeBroadcasts w))
  /\ BroadcastQueueService.getActiveBroadcastsCount
       (BroadcastQueueService.startBroadcast bid w)
     = (if bool_decide (bid ∈ activeBroadcasts w)
        then BroadcastQueueService.getActiveBroadcastsCount w
        else S (BroadcastQueueService.getActiveBroadcastsCount w)).
Proof.
  assert (Hin : bid ∈ activeBroadcasts (BroadcastQueueService.startBroadcast bid w)).
  { unfold BroadcastQueueService.startBroadcast. case_bool_decide as H; [done|].
    cbn. apply elem_of_union. left. by apply elem_of_singleton. }
  split; [|split; [exact Hin|split; [apply stopBroadcast_stops|split]]].
  - unfold BroadcastQueueService.startBroadcast at 1.
    by rewrite bool_decide_true.
  - intros Hne. unfold BroadcastQueueService.startBroadcast,
      BroadcastQueueService.stopBroadcast.
    split; case_bool_decide; cbn; try done.
    + rewrite elem_of_union, elem_of_singleton. tauto.
    + rewrite elem_of_difference, elem_of_singleton. tauto.
  - unfold BroadcastQueueService.getActiveBroadcastsCount,
      BroadcastQueueService.startBroadcast.
    case_bool_decide as H; [done|]. cbn.
    rewrite size_union by (apply disjoint_singleton_l; exact H).
    by rewrite size_singleton.
Qed.


(** * Template variables and the start handler *)

Lemma span_not_rbrace_spec s :
  s = (MessagePersonalizer.span_not_rbrace s).1
      ++ (MessagePersonalizer.span_not_rbrace s).2
  /\ Forall (fun c => c <> MessagePersonalizer.rbrace)
            (MessagePersonalizer.span_not_rbrace s).1.
Proof.
  induction s as [|c s [IH1 IH2]]; [by split|].
  cbn [MessagePersonalizer.span_not_rbrace].
  destruct (decide (c = MessagePersonalizer.rbrace)); [by split|].
  destruct (MessagePersonalizer.span_not_rbrace s) as [run rest].
  cbn [fst snd] in *. split; [by rewrite IH1 at 1 | by constructor].
Qed.

Lemma match_at_group s g n :
  MessagePersonalizer.match_at s = Some (g, n) ->
  Forall (fun c => c <> MessagePersonalizer.rbrace) g /\ g <> [].
Proof.
  unfold MessagePersonalizer.match_at.
  destruct s as [|a [|b s]]; [done..|].
  destruct (_ && _); [|done].
  pose proof (span_not_rbrace_spec s) as [_ Hrun].
  destruct (MessagePersonalizer.span_not_rbrace s) as [[|x run] [|c [|d rest]]];
    try done.
  destruct (_ && _); [|done]. intros [= <- _]. done.
Qed.

Lemma trimStart_spec s :
  (exists pre, s = pre ++ MessagePersonalizer.trimStart s)
  /\ forall c l, MessagePersonalizer.trimStart s = c :: l ->
                 MessagePersonalizer.is_space c = false.
Proof.
  induction s as [|x s [[pre Hpre] IH]]; [split; [by exists [] | done]|].
  cbn [MessagePersonalizer.trimStart].
  destruct (MessagePersonalizer.is_space x) eqn:Hx.
  - split; [exists (x :: pre); by rewrite Hpre at 1 | exact IH].
  - split; [by exists [] | by intros c l [= <- _]].
Qed.

(** [trim] returns a stretch of its argument that neither starts nor ends
    with white space. *)
Lemma trim_spec s :
  (exists pre post, s = pre ++ MessagePersonalizer.trim s ++ post)
  /\ (forall c l, MessagePersonalizer.trim s = c :: l ->
                  MessagePersonalizer.is_space c = false)
  /\ (forall l c, MessagePersonalizer.trim s = l ++ [c] ->
                  MessagePersonalizer.is_space c = false).
Proof.
  unfold MessagePersonalizer.trim.
  destruct (trimStart_spec s) as [[pre Hpre] Hhead].
  destruct (trimStart_spec (rev (MessagePersonalizer.trimStart s)))
    as [[post Hpost] Hhead'].
  set (t := MessagePersonalizer.trimStart s) in *.
  set (u := MessagePersonalizer.trimStart (rev t)) in *.
  assert (Ht : t = rev u ++ rev post).
  { rewrite <- rev_app_distr, <- Hpost. by rewrite rev_involutive. }
  split; [|split].
  - exists pre, (rev post). by rewrite <- Ht.
  - intros c l Hl. apply (Hhead c (l ++ rev post)). by rewrite Ht, Hl.
  - intros l c Hl. apply (Hhead' c (rev l)).
    rewrite <- (rev_involutive u), Hl, rev_app_distr. done.
Qed.

Lemma exec_all_spec (P : list N -> Prop) :
  (forall s g n, MessagePersonalizer.match_at s = Some (g, n) ->
                 P (MessagePersonalizer.trim g)) ->
  forall s skip, Forall P (MessagePersonalizer.exec_all skip s).
Proof.
  intros HP. induction s as [|c s IH]; intros skip; [constructor|].
  cbn [MessagePersonalizer.exec_all]. destruct skip as [|k]; [|apply IH].
  destruct (MessagePersonalizer.match_at (c :: s)) as [[g n]|] eqn:Hm; [|apply IH].
  constructor; [by eapply HP | apply IH].
Qed.

(** X11.  Every variable [validateTemplate] reports is free of ['}'] and
    neither starts nor ends with white space; and a template without ['{']
    has no variable. *)
Theorem validateTemplate_variables template :
  Forall (fun v =>
            Forall (fun c => c <> MessagePersonalizer.rbrace) v
            /\ (forall c l, v = c :: l -> MessagePersonalizer.is_space c = false)
            /\ (forall l c, v = l ++ [c] -> MessagePersonalizer.is_space c = false))
         (MessagePersonalizer.variables
            (MessagePersonalizer.validateTemplate template))
  /\ (Forall (fun c => c <> MessagePersonalizer.lbrace) template ->
      MessagePersonalizer.variables
        (MessagePersonalizer.validateTemplate template) = []).
Proof.
  unfold MessagePersonalizer.validateTemplate.
  cbn [MessagePersonalizer.variables]. split.
  - apply exec_all_spec. intros s g n Hm.
    apply match_at_group in Hm as [Hg _].
    destruct (trim_spec g) as ((pre & post & Hpp) & Hh & Hl).
    split; [|by split].
    rewrite Hpp in Hg. by apply Forall_app in Hg as [_ [Hg _]%Forall_app].
  - generalize 0%nat. induction template as [|c s IH]; intros skip Hno; [done|].
    apply Forall_cons in Hno as [Hc Hs].
    cbn [MessagePersonalizer.exec_all]. destruct skip as [|k]; [|by apply IH].
    assert (MessagePersonalizer.match_at (c :: s) = None) as ->; [|by apply IH].
    unfold MessagePersonalizer.match_at. destruct s as [|b s]; [done|].
    by rewrite (bool_decide_false (c = _)).
Qed.

(** X12.  [POST /broadcast/start] answers 201, 400 or 500.  It answers 400
    exactly when the contact list is missing, empty or longer than 10 000,
    and 201 exactly when the list has between 1 and 10 000 contacts and the
    campaign could be created.  A request that is not answered 201 leaves the
    world as it was; one answered 201 has added exactly one campaign, a draft
    under the new id whose [stats.total] is the number of contacts, and has
    created no call row. *)
Theorem startBroadcast_validates_contacts created newId body w :
  let r := BroadcastController.startBroadcast created newId body w in
  let n := Z.of_nat (length (default [] (BroadcastController.contacts body))) in
  (BroadcastController.code r.1 = 201 \/ BroadcastController.code r.1 = 400
   \/ BroadcastController.code r.1 = 500)
  /\ (BroadcastController.code r.1 = 400 <-> n = 0 \/ 10000 < n)
  /\ (BroadcastController.code r.1 = 201
      <-> created = true /\ 1 ≤ n ≤ 10000)
  /\ (BroadcastController.code r.1 <> 201 -> r.2 = w)
  /\ (BroadcastController.code r.1 = 201 ->
      calls r.2 = calls w
      /\ exists b, broadcasts r.2 = broadcasts w ++ [b]
           /\ Broadcast._id b = newId
           /\ Broadcast.status b = BroadcastStatus.draft
           /\ Broadcast.total (Broadcast.stats b) = n).
Proof.
  cbn zeta. unfold BroadcastController.startBroadcast.
  cbn [MessagePersonalizer.validateTemplate MessagePersonalizer.valid negb].
  destruct (BroadcastController.contacts body) as [[|c cs]|];
    cbn [default from_option id length fst snd BroadcastController.code].
  all: try case_bool_decide; try destruct created;
    cbn [fst snd BroadcastController.code BroadcastService.createBroadcast
         broadcasts calls set_broadcasts].
  all: repeat match goal with
              | |- _ /\ _ => split
              | |- _ <-> _ => split
              | |- _ -> _ => intros ?
              end.
  all: try (lia || discriminate || tauto || done).
  all: try (by eexists; split; [reflexivity|]).
Qed.


(** * Redelivery of a status webhook *)

Lemma call_save_save c c' cs :
  BroadcastCall._id c = BroadcastCall._id c' ->
  BroadcastCall.save c' (BroadcastCall.save c cs) = BroadcastCall.save c' cs.
Proof.
  intros Hid. unfold BroadcastCall.save. rewrite <- list_fmap_compose.
  apply list_fmap_ext. intros _ d _. cbn.
  destruct (decide (BroadcastCall._id d = BroadcastCall._id c)) as [Hd|Hd].
  - rewrite decide_True by done. rewrite decide_True by congruence. done.
  - done.
Qed.

Lemma broadcast_save_save b bs :
  Broadcast.save b (Broadcast.save b bs) = Broadcast.save b bs.
Proof.
  unfold Broadcast.save. rewrite <- list_fmap_compose.
  apply list_fmap_ext. intros _ d _. cbn.
  destruct (decide (Broadcast._id d = Broadcast._id b)) as [Hd|Hd];
    [by rewrite decide_True | by rewrite decide_False].
Qed.

(** Looking a SID up after a save of a document that carries it: the
    document is found, when it took the place of the row found before or of
    some row while no row carried the SID. *)
Lemma findOneBySid_save_found sid c c' cs :
  BroadcastCall.findOneBySid sid cs = Some c ->
  BroadcastCall._id c' = BroadcastCall._id c ->
  BroadcastCall.callSid c' = Some sid ->
  BroadcastCall.findOneBySid sid (BroadcastCall.save c' cs) = Some c'.
Proof.
  intros Hf Hid Hsid. revert Hf.
  unfold BroadcastCall.findOneBySid, BroadcastCall.save.
  induction cs as [|x cs IH]; [done|]. cbn [fmap list_fmap find].
  destruct (bool_decide_reflect (BroadcastCall.callSid x = Some sid)) as [Hx|Hx].
  - intros [= ->]. rewrite decide_True by done. by rewrite bool_decide_true.
  - intros Hf. case_decide.
    + by rewrite bool_decide_true.
    + rewrite bool_decide_false by done. by apply IH.
Qed.

Lemma findOneBySid_save_fresh sid c' cs :
  BroadcastCall.findOneBySid sid cs = None ->
  (exists d, In d cs /\ BroadcastCall._id d = BroadcastCall._id c') ->
  BroadcastCall.callSid c' = Some sid ->
  BroadcastCall.findOneBySid sid (BroadcastCall.save c' cs) = Some c'.
Proof.
  intros Hf Hex Hsid. revert Hf Hex.
  unfold BroadcastCall.findOneBySid, BroadcastCall.save.
  induction cs as [|x cs IH]; [by intros _ (d & [] & _)|].
  cbn [fmap list_fmap find].
  destruct (bool_decide_reflect (BroadcastCall.callSid x = Some sid)) as [Hx|Hx];
    [done|].
  intros Hf (d & Hd & Hid). case_decide as Hxid.
  - by rewrite bool_decide_true.
  - rewrite bool_decide_false by done. apply IH; [done|].
    destruct Hd as [->|Hd]; [done | eauto].
Qed.

(** Looking a SID up after a save of a document that does not carry it. *)
Lemma findOneBySid_save_other sid c' cs :
  BroadcastCall.callSid c' <> Some sid ->
  BroadcastCall.findOneBySid sid cs = None ->
  BroadcastCall.findOneBySid sid (BroadcastCall.save c' cs) = None.
Proof.
  intros Hsid. unfold BroadcastCall.findOneBySid, BroadcastCall.save.
  induction cs as [|x cs IH]; [done|]. cbn [fmap list_fmap find].
  destruct (bool_decide_reflect (BroadcastCall.callSid x = Some sid)); [done|].
  intros H. case_decide.
  - rewrite bool_decide_false by done. by apply IH.
  - rewrite bool_decide_false by done. by apply IH.
Qed.

Lemma findOneBySid_none sid cs d :
  BroadcastCall.findOneBySid sid cs = None -> In d cs ->
  BroadcastCall.callSid d <> Some sid.
Proof.
  unfold BroadcastCall.findOneBySid. intros Hn Hd Hs.
  apply (find_none _ _ Hn) in Hd. by rewrite bool_decide_true in Hd.
Qed.

(** The lookup phase settles on the same call when the webhook comes again
    after the call it resolved was saved. *)
Lemma lookupCall_again body callId w c w0 c' w2 :
  TwilioWebhooks.lookupCall body callId w = (Some c, w0) ->
  BroadcastCall._id c' = BroadcastCall._id c ->
  BroadcastCall.callSid c' = BroadcastCall.callSid c ->
  calls w2 = BroadcastCall.save c' (calls w0) ->
  TwilioWebhooks.lookupCall body callId w2 = (Some c', w2).
Proof.
  intros Hl Hid Hsid Hw2. unfold TwilioWebhooks.lookupCall in *.
  destruct (BroadcastCall.findOneBySid (TwilioWebhooks.CallSid body) (calls w))
    as [d|] eqn:Hf.
  - (* found by SID *)
    injection Hl as -> ->. rewrite Hw2.
    apply call_findOneBySid_in in Hf as Hc. destruct Hc as [Hcs Hin].
    rewrite (findOneBySid_save_found _ c c'); [done..| by rewrite Hsid].
  - destruct callId as [| |n]; [done..|].
    destruct (BroadcastCall.findById n (calls w)) as [c0|] eqn:Hid0; [|done].
    apply call_findById_id in Hid0 as Hc0. destruct Hc0 as [Hn Hin0].
    pose proof (findOneBySid_none _ _ _ Hf Hin0) as Hnot.
    destruct (TwilioWebhooks.truthy (BroadcastCall.callSid c0)) eqn:Ht;
      cbn [negb] in Hl; injection Hl as <- <-.
    + (* the row had another SID *)
      rewrite Hw2.
      rewrite findOneBySid_save_other; [| congruence | done].
      rewrite (call_find_save _ _ _ _ Hid0).
      rewrite decide_True by congruence. by rewrite Hsid, Ht.
    + (* the SID was backfilled *)
      rewrite Hw2. cbn [calls save_call set_calls].
      rewrite call_save_save by (symmetry; exact Hid).
      rewrite findOneBySid_save_fresh; [done | done | | by rewrite Hsid].
      exists c0. split; [done | by rewrite Hid].
Qed.

Lemma metadata_again_1 (m : gmap string (option string)) a x :
  <[a:=x]> (<[a:=x]> m) = <[a:=x]> m.
Proof. apply insert_insert_eq. Qed.

Lemma metadata_again_2 (m : gmap string (option string)) a b x y :
  <[a:=x]> (<[b:=y]> (<[a:=x]> (<[b:=y]> m))) = <[a:=x]> (<[b:=y]> m).
Proof.
  apply map_eq. intros k. rewrite !lookup_insert. by repeat case_decide.
Qed.

Lemma metadata_again_3 (m : gmap string (option string)) a b c x y z :
  <[a:=x]> (<[b:=y]> (<[c:=z]> (<[a:=x]> (<[b:=y]> (<[c:=z]> m)))))
  = <[a:=x]> (<[b:=y]> (<[c:=z]> m)).
Proof.
  apply map_eq. intros k. rewrite !lookup_insert. by repeat case_decide.
Qed.

Lemma updatedCall_again now now' body st c :
  TwilioWebhooks.CallStatus body <> "completed" \/ now' = now ->
  TwilioWebhooks.updatedCall now' body st (TwilioWebhooks.updatedCall now body st c)
  = TwilioWebhooks.updatedCall now body st c.
Proof.
  intros H. unfold TwilioWebhooks.updatedCall.
  destruct (bool_decide_reflect (TwilioWebhooks.CallStatus body = "completed"))
    as [Hc|Hc]; [destruct H as [H| ->]; [done|]|];
    destruct (TwilioWebhooks.truthy (TwilioWebhooks.AnsweredBy body)),
      (TwilioWebhooks.truthy (TwilioWebhooks.ErrorCode body)
       || TwilioWebhooks.truthy (TwilioWebhooks.ErrorMessage body));
    destruct c; cbn;
    rewrite ?metadata_again_3, ?metadata_again_2, ?metadata_again_1; reflexivity.
Qed.

(** The campaigns after a webhook that resolved call [c] and carried an
    accepted status. *)
Lemma handleCallStatus_found_rest now body callId w c w0 st :
  TwilioWebhooks.lookupCall body callId w = (Some c, w0) ->
  TwilioWebhooks.mappedStatus (TwilioWebhooks.CallStatus body) = Some st ->
  let c' := TwilioWebhooks.updatedCall now body st c in
  let r := TwilioWebhooks.handleCallStatus now body callId w in
  broadcasts r.2
  = match Broadcast.findById (BroadcastCall.broadcast c') (broadcasts w0) with
    | Some b =>
      Broadcast.save
        (Broadcast.set_stats
           (TwilioWebhooks.recomputedStats b
              (TwilioWebhooks.aggregateByStatus (Broadcast._id b)
                 (BroadcastCall.save c' (calls w0)))) b)
        (broadcasts w0)
    | None => broadcasts w0
    end
  /\ optouts r.2 = optouts w0
  /\ activeBroadcasts r.2 = activeBroadcasts w0.
Proof.
  intros Hl Hst. cbn zeta. unfold TwilioWebhooks.handleCallStatus.
  rewrite Hl, Hst. cbn [snd broadcasts emit save_call set_calls].
  by destruct (Broadcast.findById _ _).
Qed.

(** X13.  Delivering the same status webhook a second time gives the same
    answer and leaves the calls, the campaigns, the opt-outs and the ticker
    registry exactly as the first delivery left them, when the status is
    not 'completed' or both deliveries read the same clock (a redelivered
    'completed' only moves [endTime]). *)
Theorem status_webhook_redelivery now now' body callId w :
  TwilioWebhooks.CallStatus body <> "completed" \/ now' = now ->
  let r1 := TwilioWebhooks.handleCallStatus now body callId w in
  let r2 := TwilioWebhooks.handleCallStatus now' body callId r1.2 in
  r2.1 = r1.1
  /\ calls r2.2 = calls r1.2
  /\ broadcasts r2.2 = broadcasts r1.2
  /\ optouts r2.2 = optouts r1.2
  /\ activeBroadcasts r2.2 = activeBroadcasts r1.2.
Proof.
  intros Hsame. cbn zeta.
  destruct (TwilioWebhooks.lookupCall body callId w) as [[c|] w0] eqn:Hl.
  - destruct (TwilioWebhooks.mappedStatus (TwilioWebhooks.CallStatus body))
      as [st|] eqn:Hst.
    + (* 200 *)
      set (c' := TwilioWebhooks.updatedCall now body st c).
      destruct (handleCallStatus_found now body callId w c w0 st Hl Hst)
        as [Hcode Hcalls].
      destruct (handleCallStatus_found_rest now body callId w c w0 st Hl Hst)
        as (Hbs & Hopt & Hact).
      fold c' in Hcalls, Hbs.
      set (w1 := (TwilioWebhooks.handleCallStatus now body callId w).2) in *.
      assert (Hl2 : TwilioWebhooks.lookupCall body callId w1 = (Some c', w1)).
      { apply (lookupCall_again body callId w c w0); [done| | |done].
        - apply updatedCall_id.
        - apply updatedCall_callSid. }
      destruct (handleCallStatus_found now' body callId w1 c' w1 st Hl2 Hst)
        as [Hcode2 Hcalls2].
      destruct (handleCallStatus_found_rest now' body callId w1 c' w1 st Hl2 Hst)
        as (Hbs2 & Hopt2 & Hact2).
      pose proof (updatedCall_again now now' body st c Hsame) as Hagain.
      fold c' in Hagain. rewrite Hagain in Hcalls2, Hbs2.
      assert (Hcc : BroadcastCall.save c' (calls w1) = calls w1).
      { rewrite Hcalls. by apply call_save_save. }
      rewrite Hcc in Hcalls2, Hbs2.
      split; [congruence|]. split; [done|]. split; [|by split].
      rewrite Hbs2. clear Hbs2.
      destruct (Broadcast.findById (BroadcastCall.broadcast c') (broadcasts w0))
        as [b|] eqn:Hfb.
      * apply broadcast_findById_id in Hfb as Hb. destruct Hb as [Hbid _].
        set (b1 := Broadcast.set_stats
                     (TwilioWebhooks.recomputedStats b
                        (TwilioWebhooks.aggregateByStatus (Broadcast._id b)
                           (BroadcastCall.save c' (calls w0)))) b) in *.
        assert (Hf1 : Broadcast.findById (BroadcastCall.broadcast c') (broadcasts w1)
                      = Some b1).
        { rewrite Hbs, (broadcast_find_save _ _ _ _ Hfb).
          by rewrite decide_True. }
        rewrite Hf1, Hcalls, Hbs.
        assert (Broadcast.set_stats
                  (TwilioWebhooks.recomputedStats b1
                     (TwilioWebhooks.aggregateByStatus (Broadcast._id b1)
                        (BroadcastCall.save c' (calls w0)))) b1 = b1) as ->; [done|].
        apply broadcast_save_save.
      * by rewrite Hbs, Hfb.
    + (* 500 *)
      rewrite (handleCallStatus_rejected now body callId w c w0 Hl Hst).
      cbn [fst snd].
      assert (Hl2 : TwilioWebhooks.lookupCall body callId w0 = (Some c, w0)).
      { destruct (lookupCall_store _ _ _ _ _ Hl)
          as [->|(n & c0 & _ & _ & Hid0 & _ & Hc & ->)]; [done|].
        apply (lookupCall_again body callId w c _ c _ Hl); [done..|].
        injection Hc as ->. cbn [calls save_call set_calls].
        symmetry. by apply call_save_save. }
      by rewrite (handleCallStatus_rejected now' body callId w0 c w0 Hl2 Hst).
  - (* 404 *)
    destruct (handleCallStatus_unknown now body callId w w0 Hl) as [-> ->].
    cbn [fst snd].
    by destruct (handleCallStatus_unknown now' body callId w w Hl) as [-> _].
Qed.

(** The theorem at a 'ringing' webhook delivered at times 20 and 25 for a
    call known only by its id. *)
Lemma status_webhook_redelivery_witness :
  let w := Sample.world [Sample.call 7 1 "+15551" CallStatus.calling 1 None]
             [Sample.campaign 1 BroadcastStatus.in_progress 1 2 30000] [] in
  let body := TwilioWebhooks.mkStatusBody "CA100" "ringing" None (Some "human")
                None None in
  let r1 := TwilioWebhooks.handleCallStatus 20 body (TwilioWebhooks.id_ok 7%nat) w in
  let r2 := TwilioWebhooks.handleCallStatus 25 body (TwilioWebhooks.id_ok 7%nat)
              r1.2 in
  r2.1 = r1.1
  /\ calls r2.2 = calls r1.2
  /\ broadcasts r2.2 = broadcasts r1.2
  /\ optouts r2.2 = optouts r1.2
  /\ activeBroadcasts r2.2 = activeBroadcasts r1.2.
Proof.
  apply (status_webhook_redelivery 20 25
           (TwilioWebhooks.mkStatusBody "CA100" "ringing" None (Some "human")
              None None)
           (TwilioWebhooks.id_ok 7%nat)
           (Sample.world [Sample.call 7 1 "+15551" CallStatus.calling 1 None]
              [Sample.campaign 1 BroadcastStatus.in_progress 1 2 30000] [])).
  left. simpl. discriminate.
Defined.


(** * Starting a campaign *)

Lemma imap_callDoc_fields trim newCallId b audioUrl cts :
  Forall (fun c => BroadcastCall.broadcast c = Broadcast._id b
                   /\ BroadcastCall.status c = CallStatus.queued
                   /\ BroadcastCall.attempts c = 0
                   /\ BroadcastCall.callSid c = None)
         (imap (fun i ct => BroadcastService.callDoc trim b audioUrl (newCallId i) ct)
               cts).
Proof.
  revert newCallId. induction cts as [|ct cts IH]; intros newCallId; [constructor|].
  cbn [imap]. constructor; [done|]. apply (IH (newCallId ∘ S)).
Qed.

Lemma countDocuments_app bid sts cs cs' :
  BroadcastCall.countDocuments bid sts (cs ++ cs')
  = BroadcastCall.countDocuments bid sts cs
    + BroadcastCall.countDocuments bid sts cs'.
Proof.
  unfold BroadcastCall.countDocuments. rewrite List.filter_app, length_app. lia.
Qed.

Lemma countDocuments_Forall bid sts cs :
  Forall (fun c => BroadcastCall.broadcast c = bid
                   /\ BroadcastCall.status c ∈ sts) cs ->
  BroadcastCall.countDocuments bid sts cs = Z.of_nat (length cs).
Proof.
  unfold BroadcastCall.countDocuments. intros H. f_equal.
  induction H as [|c cs [Hb Hs] _ IH]; [done|]. cbn [List.filter].
  rewrite !bool_decide_true by done. cbn [andb length]. by rewrite IH.
Qed.

(** X15.  [startBroadcast] of the campaign service.  It throws, with the
    world untouched, for an unknown campaign, for one that is not a draft,
    and when the audio cannot be produced.  When a contact's phone is blank
    after trimming, the insertion of the calls throws after the campaign was
    saved as ['queued']: no call row exists and no ticker is registered.
    Otherwise the campaign is stored as ['queued'], its ticker is
    registered, the calls of before are kept and one call per contact is
    appended, so the campaign gains as many ['queued'] calls as it has
    contacts. *)
Theorem service_startBroadcast_outcomes trim newCallId tts bid w :
  let r := BroadcastService.startBroadcast trim newCallId tts bid w in
  match Broadcast.findById bid (broadcasts w) with
  | None => r = (inl BroadcastService.broadcast_not_found, w)
  | Some b =>
    if bool_decide (Broadcast.status b = BroadcastStatus.draft) then
      match tts with
      | None => r = (inl BroadcastService.tts_failed, w)
      | Some audioUrl =>
        Broadcast.status <$> Broadcast.findById bid (broadcasts r.2)
        = Some BroadcastStatus.queued
        /\ if existsb
                (fun ct => bool_decide
                   (trim (Broadcast.contact_phone ct) = String.EmptyString))
                (Broadcast.contacts b)
           then r.1 = inl BroadcastService.insert_failed
                /\ calls r.2 = calls w
                /\ activeBroadcasts r.2 = activeBroadcasts w
           else (exists b', r.1 = inr (b', BroadcastService.calls_created bid)
                            /\ Broadcast.status b' = BroadcastStatus.queued)
                /\ bid ∈ activeBroadcasts r.2
                /\ (exists new,
                      calls r.2 = calls w ++ new
                      /\ length new = length (Broadcast.contacts b)
                      /\ BroadcastCall.phone <$> new
                         = (trim ∘ Broadcast.contact_phone) <$> Broadcast.contacts b)
                /\ BroadcastCall.countDocuments bid [CallStatus.queued] (calls r.2)
                   = BroadcastCall.countDocuments bid [CallStatus.queued] (calls w)
                     + Z.of_nat (length (Broadcast.contacts b))
      end
    else r = (inl (BroadcastService.broadcast_already (Broadcast.status b)), w)
  end.
Proof.
  cbn zeta. unfold BroadcastService.startBroadcast.
  destruct (Broadcast.findById bid (broadcasts w)) as [b|] eqn:Hfind; [|done].
  destruct (broadcast_findById_id _ _ _ Hfind) as [Hid _].
  case_bool_decide as Hdraft; cbn [negb]; [|done].
  destruct tts as [audioUrl|]; [|done].
  set (b' := Broadcast.set_status BroadcastStatus.queued b).
  assert (Hfind' : Broadcast.findById bid (broadcasts (save_broadcast b' w))
                   = Some b').
  { cbn [broadcasts save_broadcast set_broadcasts].
    rewrite (broadcast_find_save _ _ _ _ Hfind). by rewrite decide_True. }
  unfold BroadcastService._createBroadcastCalls.
  set (docs := imap (fun i contact =>
                       BroadcastService.callDoc trim b' audioUrl (newCallId i) contact)
                    (Broadcast.contacts b')).
  assert (Hphones : BroadcastCall.phone <$> docs
                    = (trim ∘ Broadcast.contact_phone) <$> Broadcast.contacts b).
  { subst docs. cbn [Broadcast.contacts b' Broadcast.set_status].
    generalize newCallId. induction (Broadcast.contacts b) as [|ct cts IH];
      intros f; [done|].
    cbn [imap fmap list_fmap]. f_equal. apply (IH (f ∘ S)). }
  assert (Hblank :
    existsb (fun c => bool_decide (BroadcastCall.phone c = String.EmptyString)) docs
    = existsb (fun ct => bool_decide
                 (trim (Broadcast.contact_phone ct) = String.EmptyString))
              (Broadcast.contacts b)).
  { transitivity (existsb (fun p => bool_decide (p = String.EmptyString))
                    (BroadcastCall.phone <$> docs)).
    - clear. induction docs as [|d ds IH]; [done|]. cbn. by rewrite IH.
    - rewrite Hphones. clear. induction (Broadcast.contacts b) as [|d ds IH];
        [done|]. cbn. by rewrite IH. }
  rewrite Hblank.
  destruct (existsb _ (Broadcast.contacts b)) eqn:Hb.
  - cbn [fst snd]. split; [by rewrite Hfind'|]. done.
  - cbn [fst snd calls broadcasts activeBroadcasts emit set_calls
         BroadcastService._broadcastStatsUpdate].
    assert (Hreg : forall w0, bid ∈ activeBroadcasts
                     (BroadcastQueueService.startBroadcast bid w0)).
    { intros w0. unfold BroadcastQueueService.startBroadcast.
      case_bool_decide; [done|]. cbn. apply elem_of_union. left.
      by apply elem_of_singleton. }
    assert (Hsame : forall w0,
              calls (BroadcastQueueService.startBroadcast bid w0) = calls w0
              /\ broadcasts (BroadcastQueueService.startBroadcast bid w0)
                 = broadcasts w0).
    { intros w0. unfold BroadcastQueueService.startBroadcast.
      by case_bool_decide. }
    destruct (Hsame (set_calls (calls (save_broadcast b' w) ++ docs)
                       (save_broadcast b' w))) as [-> ->].
    cbn [calls broadcasts set_calls save_broadcast set_broadcasts].
    split.
    { change (Broadcast.save b' (broadcasts w))
        with (broadcasts (save_broadcast b' w)). by rewrite Hfind'. }
    split; [exists b'; split; [|done]; repeat f_equal; exact Hid|].
    split; [apply Hreg|].
    assert (Hlen : length docs = length (Broadcast.contacts b)).
    { by rewrite <- (length_fmap BroadcastCall.phone), Hphones, length_fmap. }
    split; [by exists docs|].
    rewrite countDocuments_app, <- Hlen. f_equal.
    apply countDocuments_Forall.
    pose proof (imap_callDoc_fields trim newCallId b' audioUrl
                  (Broadcast.contacts b')) as Hf.
    fold docs in Hf. eapply Forall_impl; [exact Hf|].
    intros c (Hcb & Hcs & _). split; [by rewrite Hcb|].
    rewrite Hcs. by apply list_elem_of_singleton.
Qed.
